(** * Ledger logic of the cosmetic inventory dashboard (dashboard.py)

    A shallow embedding of the SQLite tables and of the functions of
    [dashboard.py] that move stock: [record_transaction],
    [delete_transaction_and_restore_inventory], the feasibility calculation
    of the production page, [insert_production_history] and
    [delete_production_history_and_restore]; and of the functions around
    them: the inventory editor ([get_inventory],
    [update_inventory_from_df]), [update_expiration_date],
    [add_new_ingredient] with the new-material button,
    [get_inventory_list], [get_product_list] and the detail view of a
    production run.

    Modelling decisions.
    - A table is the list of its rows in rowid order.  Every SQL statement
      the functions issue is one function on such lists.
    - The functions are embedded twice.  In the first embedding a column of
      type REAL, and a Python float, is an exact rational in canonical form
      ([Qc]) and arithmetic is exact; it carries the statements about which
      rows and tables an operation reads and writes, and by which amount a
      stock is moved.  In the second embedding (module [binary64]) the same
      columns are IEEE binary64 numbers, added, subtracted, multiplied and
      compared with the operations of the processor; it carries every
      statement whose truth depends on a rounding: sums of deltas, round
      trips, and the comparison of the feasibility calculation.  [value]
      maps a binary64 number to the rational it stands for, and the two
      embeddings agree on the stock updates of every run in which none of
      them rounds.
    - Stock columns are taken to be non-NULL.
    - [datetime.now()] is an argument of the function that reads the clock.
    - [st.success] / [st.error] calls become the value the function returns
      next to the new database.  A storage failure inside
      [record_transaction] (its [except] branch) cannot happen in the model.
      The one constraint a function of the model can violate is the NOT NULL
      of the inventory name, in [update_inventory_from_df]: the exception
      leaves the function before the commit, and the model returns the
      database as it was together with [integrity_error]. *)

From Stdlib Require Import String ZArith QArith Qcanon List Bool Lia.
From Stdlib Require Import Sorted Permutation.
From Corelib Require FloatOps SpecFloat.
From Corelib Require Import PrimFloat.
Import ListNotations.

Open Scope string_scope.
Open Scope list_scope.
Open Scope Z_scope.
Open Scope Qc_scope.

(** ** Tables *)

Definition timestamp := string.

(** An INTEGER value used in float arithmetic. *)
Definition Z2Qc (z : Z) : Qc := Q2Qc (inject_Z z).

Module inventory.
Record row := mk {
  id : Z;
  원료명 : string;
  재고량_g : Qc;
  유통기한 : option timestamp;
  거래처 : option string;
  단가 : option Qc;
  MOQ : option Qc;
  리드타임 : option Z
}.


(** The row with its stock column replaced, all other columns kept. *)
Definition set_재고량_g (v : Qc) (r : row) : row :=
  mk (id r) (원료명 r) v (유통기한 r) (거래처 r) (단가 r) (MOQ r) (리드타임 r).
End inventory.

Module formula.
Record row := mk {
  id : Z;
  제품명 : string;
  원료명 : string;
  사용량 : Qc
}.
End formula.

Module production_history.
Record row := mk {
  id : Z;
  제품명 : string;
  용량_g : Qc;
  수량 : Z;
  날짜 : timestamp
}.
End production_history.

Module transactions.
Record row := mk {
  id : Z;
  원료명 : string;
  유형 : string;
  수량_g : Qc;
  날짜 : timestamp;
  비고 : option string
}.
End transactions.

(** The database file.  [seq_production_history] and [seq_transactions] are
    the rows of [sqlite_sequence] that AUTOINCREMENT keeps for the two tables
    the modelled functions insert into. *)
Record database := mkdb {
  tbl_inventory : list inventory.row;
  tbl_formula : list formula.row;
  tbl_production_history : list production_history.row;
  tbl_transactions : list transactions.row;
  seq_production_history : Z;
  seq_transactions : Z
}.

(** ** SQL statements *)

(** [INTEGER PRIMARY KEY AUTOINCREMENT]: one more than the largest rowid the
    table holds or has ever held. *)
Definition autoincrement (seq : Z) (ids : list Z) : Z :=
  (Z.max seq (fold_right Z.max 0%Z ids) + 1)%Z.

(** [UPDATE inventory SET "재고량 (g)" = "재고량 (g)" + ? WHERE 원료명 = ?] *)
Definition update_inventory_add (amt : Qc) (name : string)
    (inv : list inventory.row) : list inventory.row :=
  map (fun r =>
         if String.eqb (inventory.원료명 r) name
         then inventory.set_재고량_g (inventory.재고량_g r + amt) r
         else r) inv.

(** [UPDATE inventory SET "재고량 (g)" = "재고량 (g)" - ? WHERE 원료명 = ?] *)
Definition update_inventory_sub (amt : Qc) (name : string)
    (inv : list inventory.row) : list inventory.row :=
  map (fun r =>
         if String.eqb (inventory.원료명 r) name
         then inventory.set_재고량_g (inventory.재고량_g r - amt) r
         else r) inv.

(** [SELECT 원료명, 유형, "수량 (g)" FROM transactions WHERE id = ?] followed
    by [cursor.fetchone()]. *)
Definition select_transaction (trans_id : Z) (txs : list transactions.row)
    : option (string * string * Qc) :=
  match find (fun t => Z.eqb (transactions.id t) trans_id) txs with
  | Some t => Some (transactions.원료명 t, transactions.유형 t,
                    transactions.수량_g t)
  | None => None
  end.

(** [DELETE FROM transactions WHERE id = ?] *)
Definition delete_transaction_row (trans_id : Z)
    (txs : list transactions.row) : list transactions.row :=
  filter (fun t => negb (Z.eqb (transactions.id t) trans_id)) txs.

(** [SELECT 제품명, "용량 (g)" as 용량, 수량 FROM production_history WHERE id = ?]
    followed by [cursor.fetchone()]. *)
Definition select_production_history (hist_id : Z)
    (hs : list production_history.row) : option (string * Qc * Z) :=
  match find (fun h => Z.eqb (production_history.id h) hist_id) hs with
  | Some h => Some (production_history.제품명 h, production_history.용량_g h,
                    production_history.수량 h)
  | None => None
  end.

(** [DELETE FROM production_history WHERE id = ?] *)
Definition delete_production_history_row (hist_id : Z)
    (hs : list production_history.row) : list production_history.row :=
  filter (fun h => negb (Z.eqb (production_history.id h) hist_id)) hs.

(** [get_formula_df]:
    [SELECT 원료명, "사용량 (g/%)" FROM formula WHERE 제품명 = ?] *)
Definition get_formula_df (d : database) (product_name : string)
    : list (string * Qc) :=
  map (fun f => (formula.원료명 f, formula.사용량 f))
      (filter (fun f => String.eqb (formula.제품명 f) product_name)
              (tbl_formula d)).

(** [get_inventory_df]: [SELECT * FROM inventory] *)
Definition get_inventory_df (d : database) : list inventory.row :=
  tbl_inventory d.

(** ** Messages shown to the user *)

(** The texts the functions build; the arguments are the values their
    f-strings format. *)
Inductive message :=
| msg_recorded (유형 원료명 : string) (수량_g : Qc) (memo : string)
    (* "{유형} 기록 완료! (원료: ..., 수량(g): ..., 비고: ...)" *)
| msg_transaction_deleted (trans_id : Z)
    (* "거래 ID {trans_id} 삭제, 재고 복원 완료!" *)
| msg_transaction_not_found
    (* "해당 거래 ID를 찾을 수 없습니다." *)
| msg_shortage (ingredient : string) (required_qty current_stock : Qc)
    (* "{ingredient} 재고 부족 -> 필요 ...g, 보유 ...g" *)
| msg_history_not_found
    (* "해당 생산 이력을 찾을 수 없습니다." *)
| msg_no_formula (product_name : string)
    (* "'{product_name}'에 대한 처방이 없어 복원이 불가능합니다." *)
| msg_history_deleted (hist_id : Z)
    (* "ID={hist_id} 생산 이력을 삭제하고 재고를 복원했습니다." *)
| msg_formula_missing (product_name : string)
    (* "{product_name}에 대한 처방이 없습니다." *)
| msg_produced (product_name : string) (total_quantity new_id : Z)
    (* "{product_name} {total_quantity}개 생산 완료! (ID={new_id})" *).

Inductive st_call :=
| st_success (m : message)
| st_warning (m : message)
| st_error (m : message).

(** ** 입출고 기록 *)

(** What [float(text)] makes of a text: the number it denotes, or nothing
    when it raises. *)
Definition float_of_text := option Qc.

(** [str] of a float: a text that [float] reads back as the same number. *)
Definition str (x : Qc) : float_of_text := Some x.

Definition num_or_zero (text : float_of_text) : Qc :=
  match text with
  | Some v => v
  | None => 0
  end.

Definition record_transaction (now : timestamp) (원료명 유형 : string)
    (수량_g : Qc) (memo : string) (d : database) : database * st_call :=
  let new_id :=
    autoincrement (seq_transactions d)
                  (map transactions.id (tbl_transactions d)) in
  let txs :=
    tbl_transactions d ++
    [transactions.mk new_id 원료명 유형 (num_or_zero (str 수량_g)) now
                     (Some memo)] in
  let inv :=
    if String.eqb 유형 "입고"
    then update_inventory_add 수량_g 원료명 (tbl_inventory d)
    else update_inventory_sub 수량_g 원료명 (tbl_inventory d) in
  (mkdb inv (tbl_formula d) (tbl_production_history d) txs
        (seq_production_history d) new_id,
   st_success (msg_recorded 유형 원료명 수량_g memo)).

Definition delete_transaction_and_restore_inventory (trans_id : Z)
    (d : database) : database * st_call :=
  match select_transaction trans_id (tbl_transactions d) with
  | Some (ingr, ttype, amt) =>
      let inv :=
        if String.eqb ttype "입고"
        then update_inventory_sub amt ingr (tbl_inventory d)
        else update_inventory_add amt ingr (tbl_inventory d) in
      (mkdb inv (tbl_formula d) (tbl_production_history d)
            (delete_transaction_row trans_id (tbl_transactions d))
            (seq_production_history d) (seq_transactions d),
       st_success (msg_transaction_deleted trans_id))
  | None => (d, st_error msg_transaction_not_found)
  end.

(** ** 생산 가능량 계산 *)

Record session_state := mksession {
  calc_done : bool;
  used_table : list (string * Qc * Qc);
  sufficient : bool
}.

Definition Qcltb (x y : Qc) : bool :=
  match x ?= y with
  | Lt => true
  | _ => false
  end.

(** [inv_df.loc[inv_df["원료명"] == ingredient, "재고량 (g)"].sum()] *)
Definition current_stock (inv_df : list inventory.row) (ingredient : string)
    : Qc :=
  fold_left Qcplus
    (map inventory.재고량_g
         (filter (fun r => String.eqb (inventory.원료명 r) ingredient) inv_df))
    0.

Definition insert_production_history (now : timestamp) (제품명 : string)
    (용량_g : Qc) (수량 : Z) (used_materials : list (string * Qc))
    (d : database) : database * Z :=
  let new_id :=
    autoincrement (seq_production_history d)
                  (map production_history.id (tbl_production_history d)) in
  let hs :=
    tbl_production_history d ++
    [production_history.mk new_id 제품명 용량_g 수량 now] in
  let inv :=
    fold_left (fun inv m => update_inventory_sub (snd m) (fst m) inv)
              used_materials (tbl_inventory d) in
  (mkdb inv (tbl_formula d) hs (tbl_transactions d) new_id
        (seq_transactions d),
   new_id).

(** One turn of the loop over [formula_df.iterrows()] of the
    "생산 가능량 계산" button; the state is
    [(used_table, sufficient, errors shown)]. *)
Definition calc_step (inv_df : list inventory.row)
    (unit_capacity total_quantity : Z)
    (acc : list (string * Qc * Qc) * bool * list st_call)
    (row : string * Qc) : list (string * Qc * Qc) * bool * list st_call :=
  let '(used_table, sufficient, shown) := acc in
  let ingredient := fst row in
  let usage_per_unit := snd row in
  let required_qty :=
    usage_per_unit * Z2Qc unit_capacity * Z2Qc total_quantity in
  let current_stock := current_stock inv_df ingredient in
  let used_table := used_table ++ [(ingredient, required_qty, current_stock)] in
  if Qcltb current_stock required_qty
  then (used_table, false,
        shown ++ [st_error (msg_shortage ingredient required_qty current_stock)])
  else (used_table, sufficient, shown).

(** The handler of the "생산 가능량 계산" button, for the [formula_df] the page
    has read. *)
Definition calc_button (formula_df : list (string * Qc))
    (unit_capacity total_quantity : Z) (d : database) (s : session_state)
    : database * session_state * list st_call :=
  let inv_df := get_inventory_df d in
  let '(used_table, sufficient, shown) :=
    fold_left (calc_step inv_df unit_capacity total_quantity) formula_df
              ([], true, []) in
  (d, mksession true used_table sufficient, shown).

(** The handler of the "생산 진행 확인" button. *)
Definition confirm_button (now : timestamp) (product_name : string)
    (unit_capacity total_quantity : Z) (d : database) (s : session_state)
    : database * session_state * list st_call :=
  let used_materials := map (fun x => (fst (fst x), snd (fst x))) (used_table s) in
  let '(d', new_id) :=
    insert_production_history now product_name (Z2Qc unit_capacity)
                              total_quantity used_materials d in
  (d', mksession false [] false,
   [st_success (msg_produced product_name total_quantity new_id)]).

Inductive click := no_click | click_calc | click_confirm.

(** One run of the "생산 가능량 계산" page with the widgets holding
    [product_name], [unit_capacity] and [total_quantity].  The confirm button
    is drawn, and so can be clicked, only after the calculation block of the
    same run. *)
Definition production_page (now : timestamp) (product_name : string)
    (unit_capacity total_quantity : Z) (c : click)
    (d : database) (s : session_state)
    : database * session_state * list st_call :=
  if String.eqb product_name "" then (d, s, [])
  else
    let formula_df := get_formula_df d product_name in
    match formula_df with
    | [] => (d, s, [st_warning (msg_formula_missing product_name)])
    | _ :: _ =>
        match c with
        | click_calc => calc_button formula_df unit_capacity total_quantity d s
        | click_confirm =>
            if calc_done s && sufficient s
            then confirm_button now product_name unit_capacity total_quantity d s
            else (d, s, [])
        | no_click => (d, s, [])
        end
    end.

(** ** 생산 히스토리 *)

Definition delete_production_history_and_restore (hist_id : Z)
    (d : database) : database * (bool * message) :=
  match select_production_history hist_id (tbl_production_history d) with
  | None => (d, (false, msg_history_not_found))
  | Some (product_name, unit_capacity, total_qty) =>
      let df_formula := get_formula_df d product_name in
      match df_formula with
      | [] => (d, (false, msg_no_formula product_name))
      | _ :: _ =>
          let inv :=
            fold_left
              (fun inv r =>
                 let ingr := fst r in
                 let usage_per_unit := snd r in
                 let used_amount :=
                   usage_per_unit * unit_capacity * Z2Qc total_qty in
                 update_inventory_add used_amount ingr inv)
              df_formula (tbl_inventory d) in
          (mkdb inv (tbl_formula d)
                (delete_production_history_row hist_id
                   (tbl_production_history d))
                (tbl_transactions d)
                (seq_production_history d) (seq_transactions d),
           (true, msg_history_deleted hist_id))
      end
  end.

(** ** Sequences of calls on the transaction page *)

Inductive transaction_call :=
| call_record (now : timestamp) (원료명 유형 : string) (수량_g : Qc)
    (memo : string)
| call_delete (trans_id : Z).

Definition run_call (d : database) (c : transaction_call) : database :=
  match c with
  | call_record now 원료명 유형 수량_g memo =>
      fst (record_transaction now 원료명 유형 수량_g memo d)
  | call_delete trans_id =>
      fst (delete_transaction_and_restore_inventory trans_id d)
  end.

Definition run_calls (calls : list transaction_call) (d : database)
    : database :=
  fold_left run_call calls d.

(** ** Quantities the statements below speak about *)

(** The ledger delta a transaction row stands for: its quantity when the row
    is an inbound one, the negated quantity otherwise. *)
Definition signed_delta (t : transactions.row) : Qc :=
  if String.eqb (transactions.유형 t) "입고"
  then transactions.수량_g t
  else - transactions.수량_g t.

(** Sum of the signed deltas of the rows of the transaction table that name
    the material [name]. *)
Fixpoint ledger_sum (name : string) (txs : list transactions.row) : Qc :=
  match txs with
  | [] => 0
  | t :: rest =>
      if String.eqb (transactions.원료명 t) name
      then signed_delta t + ledger_sum name rest
      else ledger_sum name rest
  end.

(** Sum of the quantities a list of (material, quantity) pairs gives for
    [name]. *)
Fixpoint total_for (name : string) (l : list (string * Qc)) : Qc :=
  match l with
  | [] => 0
  | m :: rest =>
      if String.eqb (fst m) name
      then snd m + total_for name rest
      else total_for name rest
  end.

(** [required = usagePerUnit * unitCapacityGrams * totalUnits] for every entry
    of a formula. *)
Definition required_by_material (formula_df : list (string * Qc))
    (unit_capacity : Qc) (total_quantity : Z) : list (string * Qc) :=
  map (fun r => (fst r, snd r * unit_capacity * Z2Qc total_quantity))
      formula_df.

(** Number of inventory rows that carry the name. *)
Definition rows_named (name : string) (inv : list inventory.row) : nat :=
  length (filter (fun r => String.eqb (inventory.원료명 r) name) inv).

(** Every row's stock moved by an amount that depends on the row's name
    only. *)
Definition shift_stock (f : string -> Qc) (inv : list inventory.row)
    : list inventory.row :=
  map (fun r => inventory.set_재고량_g
                  (inventory.재고량_g r + f (inventory.원료명 r)) r) inv.

(** Primary key of the transaction table. *)
Definition transaction_ids_unique (d : database) : Prop :=
  NoDup (map transactions.id (tbl_transactions d)).

(** ** 재고 관리: the data editor and the expiry date *)

(** [ORDER BY 원료명 ASC] under the BINARY collation: rows by the bytes of
    their name.  SQLite promises no order among rows of equal name; the model
    keeps them in table order, and no statement below depends on that. *)
Fixpoint insert_by_원료명 (r : inventory.row) (l : list inventory.row)
    : list inventory.row :=
  match l with
  | [] => [r]
  | x :: rest =>
      if String.leb (inventory.원료명 r) (inventory.원료명 x)
      then r :: l
      else x :: insert_by_원료명 r rest
  end.

Definition order_by_원료명 (l : list inventory.row) : list inventory.row :=
  fold_right insert_by_원료명 [] l.

(** [get_inventory]: [SELECT * FROM inventory ORDER BY 원료명 ASC] *)
Definition get_inventory (d : database) : list inventory.row :=
  order_by_원료명 (tbl_inventory d).

(** A row of the frame [st.data_editor] hands back.  The id cell is empty in
    a row the user added in the editor, and the name cell is empty when the
    user cleared it; the stock cell holds a value. *)
Module edited.
Record row := mk {
  id : option Z;
  원료명 : option string;
  재고량_g : Qc;
  유통기한 : option timestamp;
  거래처 : option string;
  단가 : option Qc;
  MOQ : option Qc;
  리드타임 : option Z
}.
End edited.

(** An inventory row as the editor shows it, untouched. *)
Definition as_edited (r : inventory.row) : edited.row :=
  edited.mk (Some (inventory.id r)) (Some (inventory.원료명 r))
            (inventory.재고량_g r) (inventory.유통기한 r) (inventory.거래처 r)
            (inventory.단가 r) (inventory.MOQ r) (inventory.리드타임 r).

(** One turn of the loop of [update_inventory_from_df]:
    [UPDATE inventory SET 원료명 = ?, "재고량 (g)" = ?, 유통기한 = ?, 거래처 = ?,
    "단가 (원/kg)" = ?, "MOQ (kg)" = ?, "리드타임 (일)" = ? WHERE id = ?].
    An empty id cell is bound as NULL, and [id = NULL] holds of no row.  An
    empty name cell is bound as NULL too: when the statement reaches a row,
    the NOT NULL constraint of the name column fails and sqlite3 raises
    IntegrityError ([None] here).  The expiry cell is a text or empty, and
    [str] of a text is that text. *)
Definition update_inventory_where_id (e : edited.row)
    (inv : list inventory.row) : option (list inventory.row) :=
  match edited.id e with
  | None => Some inv
  | Some i =>
      match edited.원료명 e with
      | Some name =>
          Some (map (fun r =>
                       if Z.eqb (inventory.id r) i
                       then inventory.mk (inventory.id r) name
                                         (edited.재고량_g e) (edited.유통기한 e)
                                         (edited.거래처 e) (edited.단가 e)
                                         (edited.MOQ e) (edited.리드타임 e)
                       else r) inv)
      | None =>
          if existsb (fun r => Z.eqb (inventory.id r) i) inv
          then None
          else Some inv
      end
  end.

Inductive save_outcome :=
| saved            (* the loop ended and [conn.commit()] ran *)
| integrity_error  (* sqlite3.IntegrityError left the function *).

(** [update_inventory_from_df]: the loop over [df.iterrows()] and the commit.
    An exception leaves the function before the commit, and closing the
    connection then discards every UPDATE of the loop. *)
Definition update_inventory_from_df (df : list edited.row) (d : database)
    : database * save_outcome :=
  match fold_left
          (fun acc e =>
             match acc with
             | Some inv => update_inventory_where_id e inv
             | None => None
             end)
          df (Some (tbl_inventory d)) with
  | Some inv =>
      (mkdb inv (tbl_formula d) (tbl_production_history d)
            (tbl_transactions d) (seq_production_history d)
            (seq_transactions d),
       saved)
  | None => (d, integrity_error)
  end.

(** [update_expiration_date]: [UPDATE inventory SET 유통기한 = ? WHERE id = ?] *)
Definition update_expiration_date (row_id : Z) (new_date : string)
    (d : database) : database :=
  mkdb (map (fun r =>
               if Z.eqb (inventory.id r) row_id
               then inventory.mk (inventory.id r) (inventory.원료명 r)
                                 (inventory.재고량_g r) (Some new_date)
                                 (inventory.거래처 r) (inventory.단가 r)
                                 (inventory.MOQ r) (inventory.리드타임 r)
               else r) (tbl_inventory d))
       (tbl_formula d) (tbl_production_history d) (tbl_transactions d)
       (seq_production_history d) (seq_transactions d).

(** [str(new_date)] for the value of [st.date_input(..., value=None)]: the
    ISO text of the chosen date, or the text of [None] when no date was
    chosen. *)
Definition str_date (new_date : option string) : string :=
  match new_date with
  | Some iso => iso
  | None => "None"
  end.

Inductive expiration_notice :=
| expiration_updated      (* "유통기한이 성공적으로 업데이트되었습니다." *)
| expiration_not_selected (* "원료를 제대로 선택해주세요." *).

(** The handler of the "유통기한 수정" button.  [selected_id] is the number
    read out of the chosen label, [None] when there is none; [if selected_id]
    also rejects 0. *)
Definition expiration_button (selected_id : option Z)
    (new_date : option string) (d : database)
    : database * expiration_notice :=
  match selected_id with
  | Some i =>
      if Z.eqb i 0 then (d, expiration_not_selected)
      else (update_expiration_date i (str_date new_date) d,
            expiration_updated)
  | None => (d, expiration_not_selected)
  end.

(** ** 입출고 기록: lists and the new-material flow *)

(** [Series.unique()]: the values in order of first appearance. *)
Fixpoint unique (l : list string) : list string :=
  match l with
  | [] => []
  | x :: rest => x :: filter (fun y => negb (String.eqb y x)) (unique rest)
  end.

(** [get_inventory_list]: the names of
    [SELECT 원료명 FROM inventory ORDER BY 원료명 ASC], each once. *)
Definition get_inventory_list (d : database) : list string :=
  unique (map inventory.원료명 (order_by_원료명 (tbl_inventory d))).

(** [get_product_list]: [SELECT DISTINCT 제품명 FROM formula].  SQLite
    promises no order for it; the model lists the names by first
    appearance. *)
Definition get_product_list (d : database) : list string :=
  unique (map formula.제품명 (tbl_formula d)).




(** ** 생산 히스토리: the detail view *)



(** ** Further quantities *)

(** Every transaction id is at most the [sqlite_sequence] value, as
    AUTOINCREMENT keeps it. *)
Definition transaction_ids_below_seq (d : database) : Prop :=
  Forall (fun t => (transactions.id t <= seq_transactions d)%Z)
         (tbl_transactions d).

(** What one UPDATE of the editor's loop makes of one inventory row, when
    the frame row carries a name. *)
Definition apply_edit (r : inventory.row) (e : edited.row) : inventory.row :=
  match edited.id e, edited.원료명 e with
  | Some i, Some name =>
      if Z.eqb (inventory.id r) i
      then inventory.mk (inventory.id r) name (edited.재고량_g e)
                        (edited.유통기한 e) (edited.거래처 e) (edited.단가 e)
                        (edited.MOQ e) (edited.리드타임 e)
      else r
  | _, _ => r
  end.

(** The frame row has an empty name cell and the id of an inventory row: its
    UPDATE violates NOT NULL. *)
Definition violates_not_null (inv : list inventory.row) (e : edited.row)
    : bool :=
  match edited.id e, edited.원료명 e with
  | Some i, None => existsb (fun r => Z.eqb (inventory.id r) i) inv
  | _, _ => false
  end.

(** An editor frame: the first twin row with a new stock, and a row added in
    the editor. *)
Definition edited_frame : list edited.row :=
  [edited.mk (Some 1%Z) (Some "Oil-A") (Z2Qc 42) None None None None None;
   edited.mk None (Some "Rose") (Z2Qc 9) None None None None None].

(** An editor frame in which the name of the second twin row was cleared. *)
Definition cleared_frame : list edited.row :=
  [edited.mk (Some 1%Z) (Some "Oil-A") (Z2Qc 42) None None None None None;
   edited.mk (Some 2%Z) None (Z2Qc 7) None None None None None].

(** The columns of an inventory row other than its expiry date. *)
Definition without_유통기한 (r : inventory.row) : inventory.row :=
  inventory.mk (inventory.id r) (inventory.원료명 r) (inventory.재고량_g r) None
               (inventory.거래처 r) (inventory.단가 r) (inventory.MOQ r)
               (inventory.리드타임 r).

(** The columns of an inventory row other than its stock. *)
Definition without_stock (r : inventory.row) : inventory.row :=
  inventory.set_재고량_g 0 r.

(** ** The stock-moving operations in binary64

    The definitions above compute with exact rationals.  Where the outcome of
    a rounding matters, the same functions are given once more with REAL
    columns and Python floats as IEEE binary64 numbers ([PrimFloat.float]),
    added, subtracted, multiplied and compared as the processor does.
    Integer values enter float arithmetic through [Z2F], the conversion
    Python and SQLite apply. *)

Module binary64.

Definition Z2F (z : Z) : PrimFloat.float :=
  FloatOps.SF2Prim
    (SpecFloat.binary_normalize FloatOps.prec FloatOps.emax z 0 false).

(** Python's [x < y] on floats: false when either side is a NaN. *)
Definition lt (x y : PrimFloat.float) : bool :=
  match PrimFloat.compare x y with
  | PrimFloat.FLt => true
  | _ => false
  end.


Module inventory.
Record row := mk {
  id : Z;
  원료명 : string;
  재고량_g : PrimFloat.float;
  유통기한 : option timestamp;
  거래처 : option string;
  단가 : option PrimFloat.float;
  MOQ : option PrimFloat.float;
  리드타임 : option Z
}.

Definition set_재고량_g (v : PrimFloat.float) (r : row) : row :=
  mk (id r) (원료명 r) v (유통기한 r) (거래처 r) (단가 r) (MOQ r) (리드타임 r).
End inventory.

Module formula.
Record row := mk {
  id : Z;
  제품명 : string;
  원료명 : string;
  사용량 : PrimFloat.float
}.
End formula.

Module production_history.
Record row := mk {
  id : Z;
  제품명 : string;
  용량_g : PrimFloat.float;
  수량 : Z;
  날짜 : timestamp
}.
End production_history.

Module transactions.
Record row := mk {
  id : Z;
  원료명 : string;
  유형 : string;
  수량_g : PrimFloat.float;
  날짜 : timestamp;
  비고 : option string
}.
End transactions.

Record database := mkdb {
  tbl_inventory : list inventory.row;
  tbl_formula : list formula.row;
  tbl_production_history : list production_history.row;
  tbl_transactions : list transactions.row;
  seq_production_history : Z;
  seq_transactions : Z
}.

(** [UPDATE inventory SET "재고량 (g)" = "재고량 (g)" + ? WHERE 원료명 = ?] *)
Definition update_inventory_add (amt : PrimFloat.float) (name : string)
    (inv : list inventory.row) : list inventory.row :=
  map (fun r =>
         if String.eqb (inventory.원료명 r) name
         then inventory.set_재고량_g
                (PrimFloat.add (inventory.재고량_g r) amt) r
         else r) inv.

(** [UPDATE inventory SET "재고량 (g)" = "재고량 (g)" - ? WHERE 원료명 = ?] *)
Definition update_inventory_sub (amt : PrimFloat.float) (name : string)
    (inv : list inventory.row) : list inventory.row :=
  map (fun r =>
         if String.eqb (inventory.원료명 r) name
         then inventory.set_재고량_g
                (PrimFloat.sub (inventory.재고량_g r) amt) r
         else r) inv.

Definition select_transaction (trans_id : Z) (txs : list transactions.row)
    : option (string * string * PrimFloat.float) :=
  match find (fun t => Z.eqb (transactions.id t) trans_id) txs with
  | Some t => Some (transactions.원료명 t, transactions.유형 t,
                    transactions.수량_g t)
  | None => None
  end.

Definition delete_transaction_row (trans_id : Z)
    (txs : list transactions.row) : list transactions.row :=
  filter (fun t => negb (Z.eqb (transactions.id t) trans_id)) txs.

Definition select_production_history (hist_id : Z)
    (hs : list production_history.row)
    : option (string * PrimFloat.float * Z) :=
  match find (fun h => Z.eqb (production_history.id h) hist_id) hs with
  | Some h => Some (production_history.제품명 h, production_history.용량_g h,
                    production_history.수량 h)
  | None => None
  end.

Definition delete_production_history_row (hist_id : Z)
    (hs : list production_history.row) : list production_history.row :=
  filter (fun h => negb (Z.eqb (production_history.id h) hist_id)) hs.

Definition get_formula_df (d : database) (product_name : string)
    : list (string * PrimFloat.float) :=
  map (fun f => (formula.원료명 f, formula.사용량 f))
      (filter (fun f => String.eqb (formula.제품명 f) product_name)
              (tbl_formula d)).

Definition get_inventory_df (d : database) : list inventory.row :=
  tbl_inventory d.

Inductive message :=
| msg_recorded (유형 원료명 : string) (수량_g : PrimFloat.float) (memo : string)
| msg_transaction_deleted (trans_id : Z)
| msg_transaction_not_found
| msg_shortage (ingredient : string)
    (required_qty current_stock : PrimFloat.float)
| msg_history_not_found
| msg_no_formula (product_name : string)
| msg_history_deleted (hist_id : Z).

Inductive st_call :=
| st_success (m : message)
| st_error (m : message).

(** [float(num_or_zero(str(x)))] of a float [x] is [x]: [str] prints a float
    so that [float] reads the same float back. *)
Definition record_transaction (now : timestamp) (원료명 유형 : string)
    (수량_g : PrimFloat.float) (memo : string) (d : database)
    : database * st_call :=
  let new_id :=
    autoincrement (seq_transactions d)
                  (map transactions.id (tbl_transactions d)) in
  let txs :=
    tbl_transactions d ++
    [transactions.mk new_id 원료명 유형 수량_g now (Some memo)] in
  let inv :=
    if String.eqb 유형 "입고"
    then update_inventory_add 수량_g 원료명 (tbl_inventory d)
    else update_inventory_sub 수량_g 원료명 (tbl_inventory d) in
  (mkdb inv (tbl_formula d) (tbl_production_history d) txs
        (seq_production_history d) new_id,
   st_success (msg_recorded 유형 원료명 수량_g memo)).

Definition delete_transaction_and_restore_inventory (trans_id : Z)
    (d : database) : database * st_call :=
  match select_transaction trans_id (tbl_transactions d) with
  | Some (ingr, ttype, amt) =>
      let inv :=
        if String.eqb ttype "입고"
        then update_inventory_sub amt ingr (tbl_inventory d)
        else update_inventory_add amt ingr (tbl_inventory d) in
      (mkdb inv (tbl_formula d) (tbl_production_history d)
            (delete_transaction_row trans_id (tbl_transactions d))
            (seq_production_history d) (seq_transactions d),
       st_success (msg_transaction_deleted trans_id))
  | None => (d, st_error msg_transaction_not_found)
  end.

Inductive transaction_call :=
| call_record (now : timestamp) (원료명 유형 : string)
    (수량_g : PrimFloat.float) (memo : string)
| call_delete (trans_id : Z).

Definition run_call (d : database) (c : transaction_call) : database :=
  match c with
  | call_record now 원료명 유형 수량_g memo =>
      fst (record_transaction now 원료명 유형 수량_g memo d)
  | call_delete trans_id =>
      fst (delete_transaction_and_restore_inventory trans_id d)
  end.

Definition run_calls (calls : list transaction_call) (d : database)
    : database :=
  fold_left run_call calls d.

Definition insert_production_history (now : timestamp) (제품명 : string)
    (용량_g : PrimFloat.float) (수량 : Z)
    (used_materials : list (string * PrimFloat.float)) (d : database)
    : database * Z :=
  let new_id :=
    autoincrement (seq_production_history d)
                  (map production_history.id (tbl_production_history d)) in
  let hs :=
    tbl_production_history d ++
    [production_history.mk new_id 제품명 용량_g 수량 now] in
  let inv :=
    fold_left (fun inv m => update_inventory_sub (snd m) (fst m) inv)
              used_materials (tbl_inventory d) in
  (mkdb inv (tbl_formula d) hs (tbl_transactions d) new_id
        (seq_transactions d),
   new_id).

Definition delete_production_history_and_restore (hist_id : Z)
    (d : database) : database * (bool * message) :=
  match select_production_history hist_id (tbl_production_history d) with
  | None => (d, (false, msg_history_not_found))
  | Some (product_name, unit_capacity, total_qty) =>
      let df_formula := get_formula_df d product_name in
      match df_formula with
      | [] => (d, (false, msg_no_formula product_name))
      | _ :: _ =>
          let inv :=
            fold_left
              (fun inv r =>
                 let ingr := fst r in
                 let usage_per_unit := snd r in
                 let used_amount :=
                   PrimFloat.mul (PrimFloat.mul usage_per_unit unit_capacity)
                                 (Z2F total_qty) in
                 update_inventory_add used_amount ingr inv)
              df_formula (tbl_inventory d) in
          (mkdb inv (tbl_formula d)
                (delete_production_history_row hist_id
                   (tbl_production_history d))
                (tbl_transactions d)
                (seq_production_history d) (seq_transactions d),
           (true, msg_history_deleted hist_id))
      end
  end.

Record session_state := mksession {
  calc_done : bool;
  used_table : list (string * PrimFloat.float * PrimFloat.float);
  sufficient : bool
}.

Section Calculation.

(** [Series.sum()] of pandas, which is not part of this repository: the sum
    of a column of floats.  It is a parameter here; what is assumed of it is
    stated where it is used. *)
Variable series_sum : list PrimFloat.float -> PrimFloat.float.

(** [inv_df.loc[inv_df["원료명"] == ingredient, "재고량 (g)"].sum()] *)
Definition current_stock (inv_df : list inventory.row) (ingredient : string)
    : PrimFloat.float :=
  series_sum
    (map inventory.재고량_g
         (filter (fun r => String.eqb (inventory.원료명 r) ingredient) inv_df)).

Definition calc_step (inv_df : list inventory.row)
    (unit_capacity total_quantity : Z)
    (acc : list (string * PrimFloat.float * PrimFloat.float) * bool
           * list st_call)
    (row : string * PrimFloat.float)
    : list (string * PrimFloat.float * PrimFloat.float) * bool
      * list st_call :=
  let '(used_table, sufficient, shown) := acc in
  let ingredient := fst row in
  let usage_per_unit := snd row in
  let required_qty :=
    PrimFloat.mul (PrimFloat.mul usage_per_unit (Z2F unit_capacity))
                  (Z2F total_quantity) in
  let current_stock := current_stock inv_df ingredient in
  let used_table := used_table ++ [(ingredient, required_qty, current_stock)] in
  if lt current_stock required_qty
  then (used_table, false,
        shown ++ [st_error (msg_shortage ingredient required_qty current_stock)])
  else (used_table, sufficient, shown).

Definition calc_button (formula_df : list (string * PrimFloat.float))
    (unit_capacity total_quantity : Z) (d : database) (s : session_state)
    : database * session_state * list st_call :=
  let inv_df := get_inventory_df d in
  let '(used_table, sufficient, shown) :=
    fold_left (calc_step inv_df unit_capacity total_quantity) formula_df
              ([], true, []) in
  (d, mksession true used_table sufficient, shown).

End Calculation.

(** Addition from the left, starting at 0.0. *)
Definition sum_from_left (l : list PrimFloat.float) : PrimFloat.float :=
  fold_left PrimFloat.add l PrimFloat.zero.

End binary64.

(** ** Values of binary64 numbers *)

(** The rational a finite binary64 number stands for; 0 for an infinity or a
    NaN, which [finite] tells apart. *)
Definition value (f : PrimFloat.float) : Qc :=
  match FloatOps.Prim2SF f with
  | SpecFloat.S754_finite s m e =>
      Q2Qc (((if s then Z.neg m else Z.pos m) # 1) * Qpower 2 e)
  | _ => 0
  end.

Definition finite (f : PrimFloat.float) : bool :=
  match FloatOps.Prim2SF f with
  | SpecFloat.S754_zero _ | SpecFloat.S754_finite _ _ _ => true
  | _ => false
  end.

(** [x + y] in binary64 is the sum of the two numbers, nothing rounded
    off. *)
Definition exact_add (x y : PrimFloat.float) : bool :=
  finite x && finite y && finite (PrimFloat.add x y)
  && Qc_eq_bool (value (PrimFloat.add x y)) (value x + value y).

(** [x - y] in binary64 is the difference of the two numbers. *)
Definition exact_sub (x y : PrimFloat.float) : bool :=
  finite x && finite y && finite (PrimFloat.sub x y)
  && Qc_eq_bool (value (PrimFloat.sub x y)) (value x - value y).

(** The UPDATE adding [amt] to the rows named [name] rounds nothing. *)
Definition update_add_exact (amt : PrimFloat.float) (name : string)
    (inv : list binary64.inventory.row) : bool :=
  forallb (fun r =>
             if String.eqb (binary64.inventory.원료명 r) name
             then exact_add (binary64.inventory.재고량_g r) amt
             else true) inv.

Definition update_sub_exact (amt : PrimFloat.float) (name : string)
    (inv : list binary64.inventory.row) : bool :=
  forallb (fun r =>
             if String.eqb (binary64.inventory.원료명 r) name
             then exact_sub (binary64.inventory.재고량_g r) amt
             else true) inv.

(** The UPDATE a call of the transaction page issues rounds nothing. *)
Definition call_exact (d : binary64.database)
    (c : binary64.transaction_call) : bool :=
  match c with
  | binary64.call_record _ name ty q _ =>
      if String.eqb ty "입고"
      then update_add_exact q name (binary64.tbl_inventory d)
      else update_sub_exact q name (binary64.tbl_inventory d)
  | binary64.call_delete trans_id =>
      match binary64.select_transaction trans_id
              (binary64.tbl_transactions d) with
      | Some (ingr, ttype, amt) =>
          if String.eqb ttype "입고"
          then update_sub_exact amt ingr (binary64.tbl_inventory d)
          else update_add_exact amt ingr (binary64.tbl_inventory d)
      | None => true
      end
  end.

(** No UPDATE of a sequence of calls rounds. *)
Fixpoint calls_exact (calls : list binary64.transaction_call)
    (d : binary64.database) : bool :=
  match calls with
  | [] => true
  | c :: rest => call_exact d c && calls_exact rest (binary64.run_call d c)
  end.

(** No deduction of a confirmation rounds. *)
Fixpoint deductions_exact (used_materials : list (string * PrimFloat.float))
    (inv : list binary64.inventory.row) : bool :=
  match used_materials with
  | [] => true
  | m :: rest =>
      update_sub_exact (snd m) (fst m) inv
      && deductions_exact rest
           (binary64.update_inventory_sub (snd m) (fst m) inv)
  end.

(** No restoration of a list of amounts rounds. *)
Fixpoint restorations_exact (amounts : list (string * PrimFloat.float))
    (inv : list binary64.inventory.row) : bool :=
  match amounts with
  | [] => true
  | m :: rest =>
      update_add_exact (snd m) (fst m) inv
      && restorations_exact rest
           (binary64.update_inventory_add (snd m) (fst m) inv)
  end.

(** The ledger delta of a transaction row, as a rational. *)
Definition signed_value (t : binary64.transactions.row) : Qc :=
  if String.eqb (binary64.transactions.유형 t) "입고"
  then value (binary64.transactions.수량_g t)
  else - value (binary64.transactions.수량_g t).

(** Sum of the signed deltas of the transaction rows that name [name]. *)
Fixpoint ledger_value (name : string) (txs : list binary64.transactions.row)
    : Qc :=
  match txs with
  | [] => 0
  | t :: rest =>
      if String.eqb (binary64.transactions.원료명 t) name
      then signed_value t + ledger_value name rest
      else ledger_value name rest
  end.

(** The transactions that remain after a sequence of calls, following the
    calls and not the code: a record call puts its row on file under the next
    id, a delete call strikes the rows of its id. *)
Fixpoint remaining_transactions (calls : list binary64.transaction_call)
    (on_file : list binary64.transactions.row) (seq : Z)
    : list binary64.transactions.row :=
  match calls with
  | [] => on_file
  | binary64.call_record now name ty q memo :: rest =>
      let next_id :=
        autoincrement seq (map binary64.transactions.id on_file) in
      remaining_transactions rest
        (on_file ++ [binary64.transactions.mk next_id name ty q now
                                              (Some memo)])
        next_id
  | binary64.call_delete trans_id :: rest =>
      remaining_transactions rest
        (filter (fun t => negb (Z.eqb (binary64.transactions.id t) trans_id))
                on_file)
        seq
  end.

(** The images of binary64 rows and tables in the exact model: every float
    replaced by its value. *)
Definition exact_inventory_row (r : binary64.inventory.row) : inventory.row :=
  inventory.mk (binary64.inventory.id r) (binary64.inventory.원료명 r)
               (value (binary64.inventory.재고량_g r))
               (binary64.inventory.유통기한 r) (binary64.inventory.거래처 r)
               (option_map value (binary64.inventory.단가 r))
               (option_map value (binary64.inventory.MOQ r))
               (binary64.inventory.리드타임 r).

Definition exact_transaction (t : binary64.transactions.row)
    : transactions.row :=
  transactions.mk (binary64.transactions.id t) (binary64.transactions.원료명 t)
                  (binary64.transactions.유형 t)
                  (value (binary64.transactions.수량_g t))
                  (binary64.transactions.날짜 t) (binary64.transactions.비고 t).

Definition exact_database (d : binary64.database) : database :=
  mkdb (map exact_inventory_row (binary64.tbl_inventory d))
       (map (fun f => formula.mk (binary64.formula.id f)
                                 (binary64.formula.제품명 f)
                                 (binary64.formula.원료명 f)
                                 (value (binary64.formula.사용량 f)))
            (binary64.tbl_formula d))
       (map (fun h => production_history.mk
                        (binary64.production_history.id h)
                        (binary64.production_history.제품명 h)
                        (value (binary64.production_history.용량_g h))
                        (binary64.production_history.수량 h)
                        (binary64.production_history.날짜 h))
            (binary64.tbl_production_history d))
       (map exact_transaction (binary64.tbl_transactions d))
       (binary64.seq_production_history d) (binary64.seq_transactions d).

Definition exact_call (c : binary64.transaction_call) : transaction_call :=
  match c with
  | binary64.call_record now name ty q memo =>
      call_record now name ty (value q) memo
  | binary64.call_delete trans_id => call_delete trans_id
  end.

(** [usage * unit_capacity * total_quantity] in binary64, for every entry of
    a formula. *)
Definition required_by_material_f (formula_df : list (string * float))
    (unit_capacity : float) (total_quantity : Z) : list (string * float) :=
  map (fun r => (fst r,
                 PrimFloat.mul (PrimFloat.mul (snd r) unit_capacity)
                               (binary64.Z2F total_quantity)))
      formula_df.

(** The columns of a binary64 inventory row other than its stock. *)
Definition without_stock_f (r : binary64.inventory.row)
    : binary64.inventory.row :=
  binary64.inventory.set_재고량_g PrimFloat.zero r.

(** Binary64 databases for the examples: stock 0.1, and stock 0.9 with a
    formula of 0.2 per unit; stock 100 with a formula of 0.1 per unit. *)
Definition tenth_db : binary64.database :=
  binary64.mkdb
    [binary64.inventory.mk 1 "Oil-A" 0x1.999999999999ap-4%float None None None None
                           None]
    [] [] [] 0 0.

Definition nine_tenths_db : binary64.database :=
  binary64.mkdb
    [binary64.inventory.mk 1 "Oil-A" 0x1.ccccccccccccdp-1%float None None None None
                           None]
    [binary64.formula.mk 1 "Cream-X" "Oil-A" 0x1.999999999999ap-3%float]
    [] [] 0 0.

Definition hundred_db : binary64.database :=
  binary64.mkdb
    [binary64.inventory.mk 1 "Oil-A" 0x1.9p+6%float None None None None None;
     binary64.inventory.mk 2 "Oil-A" 0x1.4p+2%float None None None None None]
    [binary64.formula.mk 1 "Cream-X" "Oil-A" 0x1.999999999999ap-4%float;
     binary64.formula.mk 2 "Cream-X" "Rose" 0x1p-1%float]
    [] [] 0 0.

(** Stock 50 with a formula of 0.1 per unit. *)
Definition fifty_db : binary64.database :=
  binary64.mkdb
    [binary64.inventory.mk 1 "Oil-A" 0x1.9p+5%float None None None None None]
    [binary64.formula.mk 1 "Cream-X" "Oil-A" 0x1.999999999999ap-4%float]
    [] [] 0 0.

(** ** The scenarios of the specification, run on the model *)

Definition oil_a (stock : Z) : inventory.row :=
  inventory.mk 1 "Oil-A" (Z2Qc stock) None None None None None.

Definition scenario_db : database :=
  mkdb [oil_a 100] [formula.mk 1 "Cream-X" "Oil-A" (Q2Qc (1 # 10))] [] [] 0 0.

Definition tx_in : transactions.row :=
  transactions.mk 1 "Oil-A" "입고" (Z2Qc 50) "t1" (Some "").

Definition tx_out : transactions.row :=
  transactions.mk 2 "Oil-A" "출고" (Z2Qc 30) "t2" (Some "").

(** [scenario_db] after the inbound 50 g and the outbound 30 g. *)
Definition recorded_db : database :=
  mkdb [oil_a 120] [formula.mk 1 "Cream-X" "Oil-A" (Q2Qc (1 # 10))] []
       [tx_in; tx_out] 0 2.

(** Two inventory rows that share a name; a product whose formula draws on
    that name, one whose formula names a material without an inventory row,
    and a run of a product that has no formula. *)
Definition twin_db : database :=
  mkdb [inventory.mk 1 "Oil-A" (Z2Qc 100) None None None None None;
        inventory.mk 2 "Wax" (Z2Qc 7) None None None None None;
        inventory.mk 3 "Oil-A" (Z2Qc 5) None None None None None]
       [formula.mk 1 "Cream-X" "Oil-A" (Q2Qc (1 # 10));
        formula.mk 2 "Balm-Y" "Rose" (Q2Qc (1 # 5))]
       [production_history.mk 1 "Cream-X" (Z2Qc 50) 10 "t0";
        production_history.mk 2 "Balm-Y" (Z2Qc 20) 3 "t0";
        production_history.mk 3 "Gel-Z" (Z2Qc 30) 4 "t0"]
       [tx_in; tx_out] 3 2.

Example scenario_transactions :
  map (fun calls => tbl_inventory (run_calls calls scenario_db))
      [ [call_record "t1" "Oil-A" "입고" (Z2Qc 50) ""];
        [call_record "t1" "Oil-A" "입고" (Z2Qc 50) "";
         call_record "t2" "Oil-A" "출고" (Z2Qc 30) ""];
        [call_record "t1" "Oil-A" "입고" (Z2Qc 50) "";
         call_record "t2" "Oil-A" "출고" (Z2Qc 30) "";
         call_delete 2];
        [call_record "t1" "Oil-A" "입고" (Z2Qc 50) "";
         call_record "t2" "Oil-A" "출고" (Z2Qc 30) "";
         call_delete 2; call_delete 1] ]
  = [[oil_a 150]; [oil_a 120]; [oil_a 150]; [oil_a 100]].
Proof.
  unfold oil_a. cbn [map].
  repeat (f_equal; try (apply Qc_is_canon; vm_compute; reflexivity)).
Qed.

Example scenario_production :
  let step1 :=
    production_page "t1" "Cream-X" 50 10 click_calc scenario_db
                    (mksession false [] false) in
  let step2 :=
    production_page "t2" "Cream-X" 50 10 click_confirm
                    (fst (fst step1)) (snd (fst step1)) in
  let step3 := delete_production_history_and_restore 1 (fst (fst step2)) in
  used_table (snd (fst step1)) = [("Oil-A", Z2Qc 50, Z2Qc 100)]
  /\ sufficient (snd (fst step1)) = true
  /\ tbl_inventory (fst (fst step2)) = [oil_a 50]
  /\ tbl_inventory (fst step3) = [oil_a 100]
  /\ tbl_production_history (fst step3) = [].
Proof.
  unfold oil_a. cbn.
  repeat split;
    repeat (f_equal; try (apply Qc_is_canon; vm_compute; reflexivity)).
Qed.

(** ** Arithmetic helpers *)






(** ** Rows and the UPDATE statements *)

Lemma set_재고량_g_same (r : inventory.row) :
  inventory.set_재고량_g (inventory.재고량_g r) r = r.
Proof. destruct r; reflexivity. Qed.

Lemma shift_stock_ext (f g : string -> Qc) (inv : list inventory.row) :
  (forall m, f m = g m) -> shift_stock f inv = shift_stock g inv.
Proof.
  intro H. unfold shift_stock. apply map_ext. intro r. now rewrite H.
Qed.

Lemma shift_stock_zero (f : string -> Qc) (inv : list inventory.row) :
  (forall m, f m = 0) -> shift_stock f inv = inv.
Proof.
  intro H. unfold shift_stock. rewrite <- (map_id inv) at 2.
  apply map_ext. intro r. rewrite H.
  replace (inventory.재고량_g r + 0) with (inventory.재고량_g r) by ring.
  apply set_재고량_g_same.
Qed.

Lemma shift_stock_shift (f g : string -> Qc) (inv : list inventory.row) :
  shift_stock f (shift_stock g inv) = shift_stock (fun m => g m + f m) inv.
Proof.
  unfold shift_stock. rewrite map_map. apply map_ext. intro r.
  unfold inventory.set_재고량_g. cbn. f_equal. ring.
Qed.

Lemma update_inventory_add_shift (amt : Qc) (name : string)
    (inv : list inventory.row) :
  update_inventory_add amt name inv
  = shift_stock (fun m => if String.eqb m name then amt else 0) inv.
Proof.
  unfold update_inventory_add, shift_stock. apply map_ext. intro r.
  destruct (String.eqb (inventory.원료명 r) name); [reflexivity |].
  replace (inventory.재고량_g r + 0) with (inventory.재고량_g r) by ring.
  symmetry. apply set_재고량_g_same.
Qed.

Lemma update_inventory_sub_shift (amt : Qc) (name : string)
    (inv : list inventory.row) :
  update_inventory_sub amt name inv
  = shift_stock (fun m => if String.eqb m name then - amt else 0) inv.
Proof.
  unfold update_inventory_sub, shift_stock. apply map_ext. intro r.
  destruct (String.eqb (inventory.원료명 r) name); [reflexivity |].
  replace (inventory.재고량_g r + 0) with (inventory.재고량_g r) by ring.
  symmetry. apply set_재고량_g_same.
Qed.

Lemma nth_error_shift_stock (f : string -> Qc) (inv : list inventory.row)
    (i : nat) (r : inventory.row) :
  nth_error inv i = Some r ->
  nth_error (shift_stock f inv) i
  = Some (inventory.set_재고량_g
            (inventory.재고량_g r + f (inventory.원료명 r)) r).
Proof.
  intro H. unfold shift_stock. rewrite nth_error_map, H. reflexivity.
Qed.



(** ** Tables with an integer primary key *)

Section Keyed.

Context {A : Type} (key : A -> Z).

Lemma find_key_none (l : list A) (x : Z) :
  (forall a, In a l -> key a <> x) ->
  find (fun a => Z.eqb (key a) x) l = None.
Proof.
  induction l as [| b l IH]; intro H; cbn [find]; [reflexivity |].
  destruct (Z.eqb_spec (key b) x) as [E | _].
  - exfalso. apply (H b); [now left | exact E].
  - apply IH. intros a Ha. apply H. now right.
Qed.

Lemma find_key_some (l : list A) (x : Z) (a : A) :
  find (fun b => Z.eqb (key b) x) l = Some a -> In a l /\ key a = x.
Proof.
  intro H. apply find_some in H. destruct H as [H1 H2].
  split; [exact H1 | now apply Z.eqb_eq].
Qed.

Lemma find_key_unique (l : list A) (a : A) :
  NoDup (map key l) -> In a l ->
  find (fun b => Z.eqb (key b) (key a)) l = Some a.
Proof.
  induction l as [| b l IH]; intros ND Hin; [contradiction |].
  cbn [map] in ND. inversion ND as [| ? ? Hnotin ND']; subst.
  cbn [find]. destruct Hin as [-> | Hin].
  - now rewrite Z.eqb_refl.
  - destruct (Z.eqb_spec (key b) (key a)) as [E | _].
    + exfalso. apply Hnotin. rewrite E. now apply in_map.
    + now apply IH.
Qed.

Lemma filter_key_absent (l : list A) (x : Z) :
  ~ In x (map key l) ->
  filter (fun a => negb (Z.eqb (key a) x)) l = l.
Proof.
  induction l as [| b l IH]; intro H; cbn [filter]; [reflexivity |].
  destruct (Z.eqb_spec (key b) x) as [E | _].
  - exfalso. apply H. left. exact E.
  - cbn [negb]. f_equal. apply IH. intro Hin. apply H. now right.
Qed.

Lemma NoDup_map_filter (p : A -> bool) (l : list A) :
  NoDup (map key l) -> NoDup (map key (filter p l)).
Proof.
  induction l as [| b l IH]; intro ND; cbn [filter]; [exact ND |].
  cbn [map] in ND. inversion ND as [| ? ? Hnotin ND']; subst.
  destruct (p b); [| now apply IH].
  cbn [map]. constructor; [| now apply IH].
  intro Hin. apply Hnotin. apply in_map_iff in Hin.
  destruct Hin as [c [Hc Hin]]. apply filter_In in Hin.
  rewrite <- Hc. apply in_map. tauto.
Qed.

Lemma fold_max_above (ids : list Z) (x : Z) :
  In x ids -> (x <= fold_right Z.max 0 ids)%Z.
Proof.
  induction ids as [| y ids IH]; intro H; [contradiction |].
  cbn [fold_right]. destruct H as [-> | H]; [lia |].
  specialize (IH H). lia.
Qed.

Lemma autoincrement_above (seq : Z) (l : list A) (a : A) :
  In a l -> (key a < autoincrement seq (map key l))%Z.
Proof.
  intro H. unfold autoincrement.
  pose proof (fold_max_above (map key l) (key a) (in_map key l a H)). lia.
Qed.

Lemma autoincrement_fresh (seq : Z) (l : list A) :
  ~ In (autoincrement seq (map key l)) (map key l).
Proof.
  intro H. apply in_map_iff in H. destruct H as [a [E Ha]].
  pose proof (autoincrement_above seq l a Ha). lia.
Qed.

Lemma NoDup_map_snoc (l : list A) (a : A) :
  NoDup (map key l) -> ~ In (key a) (map key l) ->
  NoDup (map key (l ++ [a])).
Proof.
  intros ND Hnotin. rewrite map_app. cbn [map].
  apply NoDup_app; [exact ND | repeat constructor; auto |].
  intros x Hx [<- | []]. apply Hnotin. exact Hx.
Qed.

Lemma find_snoc_fresh (l : list A) (a : A) :
  ~ In (key a) (map key l) ->
  find (fun b => Z.eqb (key b) (key a)) (l ++ [a]) = Some a.
Proof.
  intro Hnotin. induction l as [| b l IH]; cbn [app find].
  - now rewrite Z.eqb_refl.
  - destruct (Z.eqb_spec (key b) (key a)) as [E | _].
    + exfalso. apply Hnotin. left. exact E.
    + apply IH. intro Hin. apply Hnotin. now right.
Qed.

Lemma filter_snoc_fresh (l : list A) (a : A) :
  ~ In (key a) (map key l) ->
  filter (fun b => negb (Z.eqb (key b) (key a))) (l ++ [a]) = l.
Proof.
  intro Hnotin. rewrite filter_app, filter_key_absent by exact Hnotin.
  cbn [filter]. rewrite Z.eqb_refl. cbn [negb]. apply app_nil_r.
Qed.

End Keyed.

(** ** The transaction ledger *)

Lemma ledger_sum_app (name : string) (a b : list transactions.row) :
  ledger_sum name (a ++ b) = ledger_sum name a + ledger_sum name b.
Proof.
  induction a as [| t a IH]; cbn [app ledger_sum].
  - ring.
  - destruct (String.eqb (transactions.원료명 t) name); rewrite IH; ring.
Qed.

Lemma ledger_sum_delete (name : string) (txs : list transactions.row)
    (trans_id : Z) (t : transactions.row) :
  NoDup (map transactions.id txs) ->
  find (fun t => Z.eqb (transactions.id t) trans_id) txs = Some t ->
  ledger_sum name (delete_transaction_row trans_id txs)
  = ledger_sum name txs
    - (if String.eqb (transactions.원료명 t) name then signed_delta t else 0).
Proof.
  induction txs as [| u txs IH]; intros ND F; [discriminate |].
  cbn [map] in ND. inversion ND as [| ? ? Hnotin ND']; subst.
  unfold delete_transaction_row in *. cbn [find] in F. cbn [filter].
  destruct (Z.eqb_spec (transactions.id u) trans_id) as [E | NE].
  - injection F as ->. cbn [negb]. subst trans_id.
    rewrite filter_key_absent by exact Hnotin. cbn [ledger_sum].
    destruct (String.eqb (transactions.원료명 t) name); ring.
  - cbn [negb ledger_sum]. rewrite (IH ND' F).
    destruct (String.eqb (transactions.원료명 u) name); ring.
Qed.

Lemma ledger_sum_absent (name : string) (txs : list transactions.row) :
  (forall t, In t txs -> transactions.원료명 t <> name) ->
  ledger_sum name txs = 0.
Proof.
  induction txs as [| t l IH]; intro H; [reflexivity |].
  cbn [ledger_sum].
  destruct (String.eqb_spec (transactions.원료명 t) name) as [E | _].
  - exfalso. apply (H t); [now left | exact E].
  - apply IH. intros u Hu. apply H. now right.
Qed.

(** What one call does to the inventory, in terms of the transaction table
    before and after it. *)
Lemma run_call_ledger (d : database) (c : transaction_call) :
  transaction_ids_unique d ->
  transaction_ids_unique (run_call d c)
  /\ tbl_inventory (run_call d c)
     = shift_stock
         (fun m => ledger_sum m (tbl_transactions (run_call d c))
                   - ledger_sum m (tbl_transactions d))
         (tbl_inventory d).
Proof.
  intro U. unfold transaction_ids_unique in *.
  destruct c as [now name ty q memo | trans_id]; cbn [run_call].
  - unfold record_transaction. cbn [fst tbl_transactions tbl_inventory].
    split.
    + apply (NoDup_map_snoc transactions.id); [exact U |].
      cbn [transactions.id]. apply autoincrement_fresh.
    + destruct (String.eqb ty "입고") eqn:T;
        [rewrite update_inventory_add_shift
        | rewrite update_inventory_sub_shift];
        apply shift_stock_ext; intro m;
        rewrite ledger_sum_app; cbn [ledger_sum transactions.원료명];
        unfold signed_delta, num_or_zero, str;
        cbn [transactions.유형 transactions.수량_g]; rewrite T;
        rewrite (String.eqb_sym m name);
        destruct (String.eqb name m); ring.
  - unfold delete_transaction_and_restore_inventory, select_transaction.
    destruct (find _ (tbl_transactions d)) as [t |] eqn:F.
    + cbn [fst tbl_transactions tbl_inventory]. split.
      * apply NoDup_map_filter. exact U.
      * destruct (String.eqb (transactions.유형 t) "입고") eqn:T;
          [rewrite update_inventory_sub_shift
          | rewrite update_inventory_add_shift];
          apply shift_stock_ext; intro m;
          rewrite (ledger_sum_delete m _ _ t U F);
          unfold signed_delta; rewrite T;
          rewrite (String.eqb_sym m (transactions.원료명 t));
          destruct (String.eqb (transactions.원료명 t) m); ring.
    + cbn [fst]. split; [exact U |].
      symmetry. apply shift_stock_zero. intro m. ring.
Qed.

Lemma run_calls_ledger (calls : list transaction_call) (d : database) :
  transaction_ids_unique d ->
  transaction_ids_unique (run_calls calls d)
  /\ tbl_inventory (run_calls calls d)
     = shift_stock
         (fun m => ledger_sum m (tbl_transactions (run_calls calls d))
                   - ledger_sum m (tbl_transactions d))
         (tbl_inventory d).
Proof.
  revert d. induction calls as [| c calls IH]; intros d U.
  - cbn. split; [exact U |]. symmetry. apply shift_stock_zero.
    intro m. ring.
  - change (run_calls (c :: calls) d) with (run_calls calls (run_call d c)).
    destruct (run_call_ledger d c U) as [U1 E1].
    destruct (IH _ U1) as [U2 E2]. split; [exact U2 |].
    rewrite E2, E1, shift_stock_shift. apply shift_stock_ext.
    intro m. ring.
Qed.




Lemma update_inventory_add_absent (amt : Qc) (name : string)
    (inv : list inventory.row) :
  (forall r, In r inv -> inventory.원료명 r <> name) ->
  update_inventory_add amt name inv = inv.
Proof.
  intro H. unfold update_inventory_add. rewrite <- (map_id inv) at 2.
  apply map_ext_in. intros r Hr.
  destruct (String.eqb_spec (inventory.원료명 r) name) as [E | _];
    [exfalso; exact (H r Hr E) | reflexivity].
Qed.

Lemma update_inventory_sub_absent (amt : Qc) (name : string)
    (inv : list inventory.row) :
  (forall r, In r inv -> inventory.원료명 r <> name) ->
  update_inventory_sub amt name inv = inv.
Proof.
  intro H. unfold update_inventory_sub. rewrite <- (map_id inv) at 2.
  apply map_ext_in. intros r Hr.
  destruct (String.eqb_spec (inventory.원료명 r) name) as [E | _];
    [exfalso; exact (H r Hr E) | reflexivity].
Qed.


(** ** Production runs *)

Lemma fold_update_inventory_sub (l : list (string * Qc))
    (inv : list inventory.row) :
  fold_left (fun inv m => update_inventory_sub (snd m) (fst m) inv) l inv
  = shift_stock (fun m => - total_for m l) inv.
Proof.
  revert inv. induction l as [| e l IH]; intro inv; cbn [fold_left].
  - symmetry. apply shift_stock_zero. intro m. reflexivity.
  - rewrite IH, update_inventory_sub_shift, shift_stock_shift.
    apply shift_stock_ext. intro m. cbn [total_for].
    rewrite (String.eqb_sym m (fst e)).
    destruct (String.eqb (fst e) m); ring.
Qed.

Lemma fold_update_inventory_add (l : list (string * Qc))
    (unit_capacity : Qc) (total_qty : Z) (inv : list inventory.row) :
  fold_left
    (fun inv r =>
       let ingr := fst r in
       let usage_per_unit := snd r in
       let used_amount := usage_per_unit * unit_capacity * Z2Qc total_qty in
       update_inventory_add used_amount ingr inv) l inv
  = shift_stock
      (fun m => total_for m (required_by_material l unit_capacity total_qty))
      inv.
Proof.
  revert inv. induction l as [| e l IH]; intro inv; cbn [fold_left].
  - symmetry. apply shift_stock_zero. intro m. reflexivity.
  - cbv zeta in *. rewrite IH, update_inventory_add_shift, shift_stock_shift.
    apply shift_stock_ext. intro m.
    unfold required_by_material. cbn [map total_for fst snd].
    rewrite (String.eqb_sym m (fst e)).
    destruct (String.eqb (fst e) m); ring.
Qed.

(** The loop of the calculation button as a whole. *)
Lemma calc_loop (inv_df : list inventory.row) (unit_capacity total_quantity : Z)
    (formula_df : list (string * Qc))
    (acc : list (string * Qc * Qc) * bool * list st_call) :
  fst (fold_left (calc_step inv_df unit_capacity total_quantity) formula_df acc)
  = (fst (fst acc)
     ++ map (fun r => (fst r,
                       snd r * Z2Qc unit_capacity * Z2Qc total_quantity,
                       current_stock inv_df (fst r))) formula_df,
     snd (fst acc)
     && forallb (fun r => negb (Qcltb (current_stock inv_df (fst r))
                                      (snd r * Z2Qc unit_capacity
                                       * Z2Qc total_quantity)))
                formula_df).
Proof.
  revert acc. induction formula_df as [| r l IH]; intro acc;
    cbn [fold_left map forallb].
  - destruct acc as [[t s] sh]. cbn. now rewrite app_nil_r, andb_true_r.
  - rewrite IH. destruct acc as [[t s] sh]. unfold calc_step.
    cbv zeta.
    destruct (Qcltb (current_stock inv_df (fst r))
                    (snd r * Z2Qc unit_capacity * Z2Qc total_quantity));
      cbn [fst snd negb andb]; rewrite <- app_assoc; cbn [app];
      [now rewrite andb_false_r | reflexivity].
Qed.


Lemma get_formula_df_none (d : database) (product_name : string) :
  (forall f, In f (tbl_formula d) -> formula.제품명 f <> product_name) ->
  get_formula_df d product_name = [].
Proof.
  intro H. unfold get_formula_df.
  induction (tbl_formula d) as [| f l IH]; [reflexivity |].
  cbn [filter].
  destruct (String.eqb_spec (formula.제품명 f) product_name) as [E | _].
  - exfalso. apply (H f); [now left | exact E].
  - apply IH. intros g Hg. apply H. now right.
Qed.

Lemma calc_button_result (formula_df : list (string * Qc))
    (unit_capacity total_quantity : Z) (d : database) (s : session_state) :
  fst (calc_button formula_df unit_capacity total_quantity d s)
  = (d,
     mksession true
       (map (fun e => (fst e,
                       snd e * Z2Qc unit_capacity * Z2Qc total_quantity,
                       current_stock (tbl_inventory d) (fst e)))
            formula_df)
       (forallb (fun e => negb (Qcltb (current_stock (tbl_inventory d) (fst e))
                                      (snd e * Z2Qc unit_capacity
                                       * Z2Qc total_quantity)))
                formula_df)).
Proof.
  unfold calc_button, get_inventory_df.
  pose proof (calc_loop (tbl_inventory d) unit_capacity total_quantity
                        formula_df ([], true, [])) as L.
  destruct (fold_left _ formula_df _) as [[t su] sh].
  cbn [fst snd app andb] in L. injection L as -> ->. reflexivity.
Qed.


(** ** Binary64 runs and their exact images *)

Lemma some_eq {A : Type} (x y : A) : Some x = Some y -> x = y.
Proof. congruence. Qed.

Lemma exact_add_value (x y : float) :
  exact_add x y = true -> value (PrimFloat.add x y) = value x + value y.
Proof.
  unfold exact_add. rewrite !andb_true_iff. intros [_ H].
  now apply Qc_eq_bool_correct.
Qed.

Lemma exact_sub_value (x y : float) :
  exact_sub x y = true -> value (PrimFloat.sub x y) = value x - value y.
Proof.
  unfold exact_sub. rewrite !andb_true_iff. intros [_ H].
  now apply Qc_eq_bool_correct.
Qed.

Lemma exact_update_add (amt : float) (name : string)
    (inv : list binary64.inventory.row) :
  update_add_exact amt name inv = true ->
  map exact_inventory_row (binary64.update_inventory_add amt name inv)
  = update_inventory_add (value amt) name (map exact_inventory_row inv).
Proof.
  unfold update_add_exact, binary64.update_inventory_add,
    update_inventory_add.
  rewrite forallb_forall, !map_map. intro H. apply map_ext_in. intros r Hr.
  specialize (H r Hr). cbn [exact_inventory_row inventory.원료명].
  destruct (String.eqb (binary64.inventory.원료명 r) name); [| reflexivity].
  unfold exact_inventory_row, inventory.set_재고량_g. cbn.
  now rewrite (exact_add_value _ _ H).
Qed.

Lemma exact_update_sub (amt : float) (name : string)
    (inv : list binary64.inventory.row) :
  update_sub_exact amt name inv = true ->
  map exact_inventory_row (binary64.update_inventory_sub amt name inv)
  = update_inventory_sub (value amt) name (map exact_inventory_row inv).
Proof.
  unfold update_sub_exact, binary64.update_inventory_sub,
    update_inventory_sub.
  rewrite forallb_forall, !map_map. intro H. apply map_ext_in. intros r Hr.
  specialize (H r Hr). cbn [exact_inventory_row inventory.원료명].
  destruct (String.eqb (binary64.inventory.원료명 r) name); [| reflexivity].
  unfold exact_inventory_row, inventory.set_재고량_g. cbn.
  now rewrite (exact_sub_value _ _ H).
Qed.

Lemma exact_find_transaction (trans_id : Z)
    (txs : list binary64.transactions.row) :
  find (fun t => Z.eqb (transactions.id t) trans_id)
       (map exact_transaction txs)
  = option_map exact_transaction
      (find (fun t => Z.eqb (binary64.transactions.id t) trans_id) txs).
Proof.
  induction txs as [| t txs IH]; [reflexivity |].
  cbn [map find exact_transaction transactions.id].
  destruct (Z.eqb (binary64.transactions.id t) trans_id);
    [reflexivity | exact IH].
Qed.

Lemma exact_delete_transaction_row (trans_id : Z)
    (txs : list binary64.transactions.row) :
  delete_transaction_row trans_id (map exact_transaction txs)
  = map exact_transaction (binary64.delete_transaction_row trans_id txs).
Proof.
  unfold delete_transaction_row, binary64.delete_transaction_row.
  induction txs as [| t txs IH]; [reflexivity |].
  cbn [map filter exact_transaction transactions.id].
  destruct (Z.eqb (binary64.transactions.id t) trans_id); cbn [negb map];
    [exact IH | now rewrite IH].
Qed.

(** A call that rounds nothing does in binary64 what it does in exact
    arithmetic. *)
Lemma exact_run_call (d : binary64.database) (c : binary64.transaction_call) :
  call_exact d c = true ->
  exact_database (binary64.run_call d c)
  = run_call (exact_database d) (exact_call c).
Proof.
  destruct c as [now name ty q memo | trans_id];
    cbn [call_exact binary64.run_call run_call exact_call].
  - intro E. unfold binary64.record_transaction, record_transaction.
    cbn [fst]. unfold exact_database at 1.
    cbn [binary64.tbl_inventory binary64.tbl_formula
         binary64.tbl_production_history binary64.tbl_transactions
         binary64.seq_production_history binary64.seq_transactions].
    unfold exact_database.
    cbn [tbl_inventory tbl_formula tbl_production_history tbl_transactions
         seq_production_history seq_transactions num_or_zero str].
    rewrite !map_app, !map_map. cbn [map exact_transaction transactions.id
      binary64.transactions.id binary64.transactions.원료명
      binary64.transactions.유형 binary64.transactions.수량_g
      binary64.transactions.날짜 binary64.transactions.비고].
    destruct (String.eqb ty "입고");
      [rewrite (exact_update_add _ _ _ E) | rewrite (exact_update_sub _ _ _ E)];
      reflexivity.
  - unfold binary64.delete_transaction_and_restore_inventory,
      delete_transaction_and_restore_inventory,
      binary64.select_transaction, select_transaction.
    unfold exact_database at 2 3.
    cbn [tbl_transactions tbl_inventory].
    rewrite exact_find_transaction.
    destruct (find _ (binary64.tbl_transactions d)) as [t |];
      cbn [option_map fst]; [| reflexivity].
    cbn [exact_transaction transactions.원료명 transactions.유형
         transactions.수량_g].
    intro E. unfold exact_database at 1.
    cbn [binary64.tbl_inventory binary64.tbl_formula
         binary64.tbl_production_history binary64.tbl_transactions
         binary64.seq_production_history binary64.seq_transactions].
    unfold exact_database.
    cbn [tbl_inventory tbl_formula tbl_production_history tbl_transactions
         seq_production_history seq_transactions].
    rewrite exact_delete_transaction_row.
    destruct (String.eqb (binary64.transactions.유형 t) "입고");
      [rewrite (exact_update_sub _ _ _ E) | rewrite (exact_update_add _ _ _ E)];
      reflexivity.
Qed.

Lemma exact_run_calls (calls : list binary64.transaction_call)
    (d : binary64.database) :
  calls_exact calls d = true ->
  exact_database (binary64.run_calls calls d)
  = run_calls (map exact_call calls) (exact_database d).
Proof.
  revert d. induction calls as [| c calls IH]; intros d E; [reflexivity |].
  cbn [calls_exact] in E. apply andb_true_iff in E. destruct E as [E1 E2].
  change (binary64.run_calls (c :: calls) d)
    with (binary64.run_calls calls (binary64.run_call d c)).
  cbn [map].
  change (run_calls (exact_call c :: map exact_call calls) (exact_database d))
    with (run_calls (map exact_call calls)
            (run_call (exact_database d) (exact_call c))).
  rewrite (IH _ E2), (exact_run_call _ _ E1). reflexivity.
Qed.

Lemma ledger_value_exact (name : string)
    (txs : list binary64.transactions.row) :
  ledger_value name txs = ledger_sum name (map exact_transaction txs).
Proof.
  induction txs as [| t txs IH]; [reflexivity |].
  cbn [ledger_value map ledger_sum exact_transaction transactions.원료명].
  unfold signed_value, signed_delta.
  cbn [transactions.유형 transactions.수량_g]. now rewrite IH.
Qed.

Lemma find_none_filter {A : Type} (key : A -> Z) (l : list A) (x : Z) :
  find (fun a => Z.eqb (key a) x) l = None ->
  filter (fun a => negb (Z.eqb (key a) x)) l = l.
Proof.
  intro F. apply filter_key_absent. intro Hin. apply in_map_iff in Hin.
  destruct Hin as [a [E Ha]].
  pose proof (find_none _ _ F a Ha) as N. cbn in N.
  rewrite E, Z.eqb_refl in N. discriminate.
Qed.

(** The transaction table after the calls is the list of the transactions
    that remain. *)
Lemma run_calls_remaining (calls : list binary64.transaction_call)
    (d : binary64.database) :
  binary64.tbl_transactions (binary64.run_calls calls d)
  = remaining_transactions calls (binary64.tbl_transactions d)
                           (binary64.seq_transactions d).
Proof.
  revert d. induction calls as [| c calls IH]; intro d; [reflexivity |].
  change (binary64.run_calls (c :: calls) d)
    with (binary64.run_calls calls (binary64.run_call d c)).
  rewrite IH. destruct c as [now name ty q memo | trans_id];
    cbn [binary64.run_call remaining_transactions].
  - reflexivity.
  - unfold binary64.delete_transaction_and_restore_inventory,
      binary64.select_transaction.
    destruct (find _ (binary64.tbl_transactions d)) as [t |] eqn:F;
      cbn [fst binary64.tbl_transactions binary64.seq_transactions].
    + reflexivity.
    + now rewrite (find_none_filter binary64.transactions.id _ _ F).
Qed.

Lemma fold_update_inventory_add_list (l : list (string * Qc))
    (inv : list inventory.row) :
  fold_left (fun inv m => update_inventory_add (snd m) (fst m) inv) l inv
  = shift_stock (fun m => total_for m l) inv.
Proof.
  revert inv. induction l as [| e l IH]; intro inv; cbn [fold_left].
  - symmetry. apply shift_stock_zero. intro m. reflexivity.
  - rewrite IH, update_inventory_add_shift, shift_stock_shift.
    apply shift_stock_ext. intro m. cbn [total_for].
    rewrite (String.eqb_sym m (fst e)).
    destruct (String.eqb (fst e) m); ring.
Qed.

Lemma exact_deductions (used : list (string * float))
    (inv : list binary64.inventory.row) :
  deductions_exact used inv = true ->
  map exact_inventory_row
      (fold_left (fun inv m => binary64.update_inventory_sub (snd m) (fst m) inv)
                 used inv)
  = fold_left (fun inv m => update_inventory_sub (snd m) (fst m) inv)
              (map (fun m => (fst m, value (snd m))) used)
              (map exact_inventory_row inv).
Proof.
  revert inv. induction used as [| m used IH]; intros inv E; [reflexivity |].
  cbn [deductions_exact] in E. apply andb_true_iff in E. destruct E as [E1 E2].
  cbn [fold_left map fst snd]. rewrite (IH _ E2), (exact_update_sub _ _ _ E1).
  reflexivity.
Qed.

Lemma exact_restorations (amounts : list (string * float))
    (inv : list binary64.inventory.row) :
  restorations_exact amounts inv = true ->
  map exact_inventory_row
      (fold_left (fun inv m => binary64.update_inventory_add (snd m) (fst m) inv)
                 amounts inv)
  = fold_left (fun inv m => update_inventory_add (snd m) (fst m) inv)
              (map (fun m => (fst m, value (snd m))) amounts)
              (map exact_inventory_row inv).
Proof.
  revert inv. induction amounts as [| m l IH]; intros inv E; [reflexivity |].
  cbn [restorations_exact] in E. apply andb_true_iff in E.
  destruct E as [E1 E2].
  cbn [fold_left map fst snd]. rewrite (IH _ E2), (exact_update_add _ _ _ E1).
  reflexivity.
Qed.

Lemma without_stock_f_add (amt : float) (name : string)
    (inv : list binary64.inventory.row) :
  map without_stock_f (binary64.update_inventory_add amt name inv)
  = map without_stock_f inv.
Proof.
  unfold binary64.update_inventory_add. rewrite map_map. apply map_ext.
  intro r. destruct (String.eqb (binary64.inventory.원료명 r) name);
    reflexivity.
Qed.

Lemma without_stock_f_sub (amt : float) (name : string)
    (inv : list binary64.inventory.row) :
  map without_stock_f (binary64.update_inventory_sub amt name inv)
  = map without_stock_f inv.
Proof.
  unfold binary64.update_inventory_sub. rewrite map_map. apply map_ext.
  intro r. destruct (String.eqb (binary64.inventory.원료명 r) name);
    reflexivity.
Qed.

Lemma without_stock_f_adds (l : list (string * float))
    (inv : list binary64.inventory.row) :
  map without_stock_f
      (fold_left (fun inv m => binary64.update_inventory_add (snd m) (fst m) inv)
                 l inv)
  = map without_stock_f inv.
Proof.
  revert inv. induction l as [| m l IH]; intro inv; [reflexivity |].
  cbn [fold_left]. now rewrite IH, without_stock_f_add.
Qed.

Lemma without_stock_f_subs (l : list (string * float))
    (inv : list binary64.inventory.row) :
  map without_stock_f
      (fold_left (fun inv m => binary64.update_inventory_sub (snd m) (fst m) inv)
                 l inv)
  = map without_stock_f inv.
Proof.
  revert inv. induction l as [| m l IH]; intro inv; [reflexivity |].
  cbn [fold_left]. now rewrite IH, without_stock_f_sub.
Qed.

(** The restoring loop of the deletion adds the required quantities of the
    formula one after the other. *)
Lemma restore_loop_f (formula_df : list (string * float))
    (unit_capacity : float) (total_qty : Z)
    (inv : list binary64.inventory.row) :
  fold_left
    (fun inv r =>
       let ingr := fst r in
       let usage_per_unit := snd r in
       let used_amount :=
         PrimFloat.mul (PrimFloat.mul usage_per_unit unit_capacity)
                       (binary64.Z2F total_qty) in
       binary64.update_inventory_add used_amount ingr inv)
    formula_df inv
  = fold_left (fun inv m => binary64.update_inventory_add (snd m) (fst m) inv)
              (required_by_material_f formula_df unit_capacity total_qty) inv.
Proof.
  revert inv. induction formula_df as [| e l IH]; intro inv; [reflexivity |].
  cbn [fold_left required_by_material_f map fst snd] in *. cbv zeta in *.
  now rewrite IH.
Qed.

(** The loop of the binary64 calculation as a whole. *)
Lemma calc_loop_f (series_sum : list float -> float)
    (inv_df : list binary64.inventory.row) (unit_capacity total_quantity : Z)
    (formula_df : list (string * float))
    (acc : list (string * float * float) * bool * list binary64.st_call) :
  fst (fold_left
         (binary64.calc_step series_sum inv_df unit_capacity total_quantity)
         formula_df acc)
  = (fst (fst acc)
     ++ map (fun r =>
               (fst r,
                PrimFloat.mul
                  (PrimFloat.mul (snd r) (binary64.Z2F unit_capacity))
                  (binary64.Z2F total_quantity),
                series_sum
                  (map binary64.inventory.재고량_g
                       (filter (fun x =>
                                  String.eqb (binary64.inventory.원료명 x)
                                             (fst r)) inv_df))))
            formula_df,
     snd (fst acc)
     && forallb
          (fun r =>
             negb (binary64.lt
                     (series_sum
                        (map binary64.inventory.재고량_g
                             (filter (fun x =>
                                        String.eqb
                                          (binary64.inventory.원료명 x)
                                          (fst r)) inv_df)))
                     (PrimFloat.mul
                        (PrimFloat.mul (snd r) (binary64.Z2F unit_capacity))
                        (binary64.Z2F total_quantity))))
          formula_df).
Proof.
  revert acc. induction formula_df as [| r l IH]; intro acc;
    cbn [fold_left map forallb].
  - destruct acc as [[t s] sh]. cbn. now rewrite app_nil_r, andb_true_r.
  - rewrite IH. destruct acc as [[t s] sh].
    unfold binary64.calc_step, binary64.current_stock. cbv zeta.
    destruct (binary64.lt _ _);
      cbn [fst snd negb andb]; rewrite <- app_assoc; cbn [app];
      [now rewrite andb_false_r | reflexivity].
Qed.

Lemma calc_button_result_f (series_sum : list float -> float)
    (formula_df : list (string * float)) (unit_capacity total_quantity : Z)
    (d : binary64.database) (s : binary64.session_state) :
  fst (binary64.calc_button series_sum formula_df unit_capacity
                            total_quantity d s)
  = (d,
     binary64.mksession true
       (map (fun r =>
               (fst r,
                PrimFloat.mul
                  (PrimFloat.mul (snd r) (binary64.Z2F unit_capacity))
                  (binary64.Z2F total_quantity),
                series_sum
                  (map binary64.inventory.재고량_g
                       (filter (fun x =>
                                  String.eqb (binary64.inventory.원료명 x)
                                             (fst r))
                               (binary64.tbl_inventory d)))))
            formula_df)
       (forallb
          (fun r =>
             negb (binary64.lt
                     (series_sum
                        (map binary64.inventory.재고량_g
                             (filter (fun x =>
                                        String.eqb
                                          (binary64.inventory.원료명 x)
                                          (fst r))
                                     (binary64.tbl_inventory d))))
                     (PrimFloat.mul
                        (PrimFloat.mul (snd r) (binary64.Z2F unit_capacity))
                        (binary64.Z2F total_quantity))))
          formula_df)).
Proof.
  unfold binary64.calc_button, binary64.get_inventory_df.
  pose proof (calc_loop_f series_sum (binary64.tbl_inventory d) unit_capacity
                          total_quantity formula_df ([], true, [])) as L.
  destruct (fold_left _ formula_df _) as [[t su] sh].
  cbn [fst snd app andb] in L. injection L as -> ->. reflexivity.
Qed.

(** ** Properties of the specification *)

(** C1 (as amended).  The stock columns are binary64 numbers, and a sum may
    round.  Take any sequence of record and delete calls of the transaction
    page, in any interleaving, run from a database with unique transaction
    ids, in which no addition or subtraction performed on a stock rounds.
    The transaction table at the end holds exactly the transactions that
    remain: those on file before and those recorded, less those a delete
    call named.  Every material row of the inventory is still at its place,
    with the same id and name, and the value of its stock is the value of its
    stock before plus the signed deltas (+quantity for an inbound row,
    -quantity otherwise) of the remaining transactions for its name, less
    those of the transactions for its name that were on file before; when
    none was on file, it is the stock before plus the signed deltas of
    exactly the transactions that remain.  (Where an operation rounds, the
    stock is the rounded result and can differ from that sum, as the
    example after the theorem shows.) *)
Theorem C1_stock_is_start_plus_remaining_deltas_when_no_update_rounds :
  forall (calls : list binary64.transaction_call) (d : binary64.database),
    NoDup (map binary64.transactions.id (binary64.tbl_transactions d)) ->
    calls_exact calls d = true ->
    let d' := binary64.run_calls calls d in
    let remaining :=
      remaining_transactions calls (binary64.tbl_transactions d)
                             (binary64.seq_transactions d) in
    binary64.tbl_transactions d' = remaining
    /\ forall (i : nat) (r : binary64.inventory.row),
         nth_error (binary64.tbl_inventory d) i = Some r ->
         exists r',
           nth_error (binary64.tbl_inventory d') i = Some r'
           /\ binary64.inventory.id r' = binary64.inventory.id r
           /\ binary64.inventory.원료명 r' = binary64.inventory.원료명 r
           /\ value (binary64.inventory.재고량_g r')
              = value (binary64.inventory.재고량_g r)
                + ledger_value (binary64.inventory.원료명 r) remaining
                - ledger_value (binary64.inventory.원료명 r)
                               (binary64.tbl_transactions d)
           /\ ((forall t, In t (binary64.tbl_transactions d) ->
                          binary64.transactions.원료명 t
                          <> binary64.inventory.원료명 r) ->
               value (binary64.inventory.재고량_g r')
               = value (binary64.inventory.재고량_g r)
                 + ledger_value (binary64.inventory.원료명 r) remaining).
Proof.
  intros calls d U X. cbv zeta.
  pose proof (run_calls_remaining calls d) as R. split; [exact R |].
  rewrite <- R. clear R.
  pose proof (exact_run_calls calls d X) as E.
  assert (U' : transaction_ids_unique (exact_database d)).
  { unfold transaction_ids_unique, exact_database. cbn [tbl_transactions].
    rewrite map_map. exact U. }
  destruct (run_calls_ledger (map exact_call calls) (exact_database d) U')
    as [_ L].
  rewrite <- E in L. unfold exact_database in L at 1 4.
  cbn [tbl_inventory] in L.
  intros i r Hr.
  assert (N : nth_error (map exact_inventory_row
                           (binary64.tbl_inventory
                              (binary64.run_calls calls d))) i
              = Some (inventory.set_재고량_g
                        (value (binary64.inventory.재고량_g r)
                         + (ledger_sum (binary64.inventory.원료명 r)
                              (tbl_transactions
                                 (exact_database (binary64.run_calls calls d)))
                            - ledger_sum (binary64.inventory.원료명 r)
                                (tbl_transactions (exact_database d))))
                        (exact_inventory_row r))).
  { rewrite L.
    rewrite (nth_error_shift_stock _ _ i (exact_inventory_row r))
      by (rewrite nth_error_map, Hr; reflexivity).
    reflexivity. }
  rewrite nth_error_map in N.
  destruct (nth_error (binary64.tbl_inventory (binary64.run_calls calls d)) i)
    as [r' |]; [| discriminate].
  cbn [option_map] in N. apply some_eq in N. exists r'.
  split; [reflexivity |].
  assert (Nid := f_equal inventory.id N).
  assert (Nname := f_equal inventory.원료명 N).
  assert (Nstock := f_equal inventory.재고량_g N).
  clear N. cbn in Nid, Nname, Nstock.
  unfold exact_database in Nstock. cbn [tbl_transactions] in Nstock.
  rewrite <- !ledger_value_exact in Nstock.
  split; [exact Nid |]. split; [exact Nname |]. split.
  - rewrite Nstock. ring.
  - intro Hnone. rewrite Nstock.
    assert (Z0 : ledger_value (binary64.inventory.원료명 r)
                              (binary64.tbl_transactions d) = 0).
    { clear -Hnone. induction (binary64.tbl_transactions d) as [| t l IH];
        [reflexivity |].
      cbn [ledger_value].
      destruct (String.eqb_spec (binary64.transactions.원료명 t)
                                (binary64.inventory.원료명 r)) as [Eq | _].
      - exfalso. apply (Hnone t); [now left | exact Eq].
      - apply IH. intros u Hu. apply Hnone. now right. }
    rewrite Z0. ring.
Qed.

Lemma C1_witness :
  exists r',
    nth_error
      (binary64.tbl_inventory
         (binary64.run_calls
            [binary64.call_record "t1" "Oil-A" "입고" 50 "";
             binary64.call_record "t2" "Oil-A" "출고" 30 "";
             binary64.call_delete 1] hundred_db)) 0 = Some r'
    /\ value (binary64.inventory.재고량_g r')
       = value 100
         + ledger_value "Oil-A"
             (remaining_transactions
                [binary64.call_record "t1" "Oil-A" "입고" 50 "";
                 binary64.call_record "t2" "Oil-A" "출고" 30 "";
                 binary64.call_delete 1] [] 0).
Proof.
  assert (U : NoDup (map binary64.transactions.id
                         (binary64.tbl_transactions hundred_db)))
    by constructor.
  assert (X : calls_exact
                [binary64.call_record "t1" "Oil-A" "입고" 50 "";
                 binary64.call_record "t2" "Oil-A" "출고" 30 "";
                 binary64.call_delete 1] hundred_db = true)
    by (vm_compute; reflexivity).
  destruct (proj2 (C1_stock_is_start_plus_remaining_deltas_when_no_update_rounds
                     _ hundred_db U X)
                  0%nat
                  (binary64.inventory.mk 1 "Oil-A" 100 None None None None
                                         None)
                  eq_refl)
    as [r' [H1 [_ [_ [_ H5]]]]].
  exists r'. split; [exact H1 |].
  apply H5. intros t [].
Defined.

(** The claim as first stated fails where a sum rounds: on a stock of 0.1,
    record an inbound 0.2 and delete that transaction.  No transaction
    remains, and the stock is 0.10000000000000003, not 0.1. *)
Lemma C1_counterexample :
  let calls :=
    [binary64.call_record "t1" "Oil-A" "입고" 0x1.999999999999ap-3 "";
     binary64.call_delete 1] in
  let d' := binary64.run_calls calls tenth_db in
  NoDup (map binary64.transactions.id (binary64.tbl_transactions tenth_db))
  /\ binary64.tbl_transactions d' = []
  /\ map binary64.inventory.재고량_g (binary64.tbl_inventory tenth_db)
     = [0x1.999999999999ap-4%float]
  /\ map binary64.inventory.재고량_g (binary64.tbl_inventory d')
     = [0x1.999999999999cp-4%float]
  /\ value 0x1.999999999999cp-4
     <> value 0x1.999999999999ap-4
        + ledger_value "Oil-A" (binary64.tbl_transactions d').
Proof.
  cbv zeta. split; [constructor |].
  split; [vm_compute; reflexivity |].
  split; [reflexivity |].
  split; [vm_compute; reflexivity |].
  intro H. apply (f_equal this) in H. vm_compute in H. discriminate.
Qed.

(** C2 (as amended).  For every product, unit capacity and unit count: run the
    feasibility calculation, confirm the production with the materials it
    computed, and at once delete the run that was created, the formula and
    the stock having been left alone in between.  The materials confirmed are
    usage * capacity * units of every formula entry; the confirmation
    subtracts them from the stock one after the other and the deletion adds
    the same numbers back one after the other, each operation in binary64.
    When the product has a formula the deletion succeeds and the run, formula
    and transaction tables are as before.  When none of these subtractions
    and additions rounds, every inventory row is back at the value of its
    stock before the confirmation, all its other columns untouched.  (Where
    one rounds, the stock can end beside its old value, as the example after
    the theorem shows.) *)
Theorem C2_confirm_then_delete_restores_stock_when_no_update_rounds :
  forall (series_sum : list float -> float) (now : timestamp)
         (product : string) (unit_capacity total_quantity : Z)
         (d : binary64.database) (s : binary64.session_state),
    let formula_df := binary64.get_formula_df d product in
    let s1 :=
      snd (fst (binary64.calc_button series_sum formula_df unit_capacity
                                     total_quantity d s)) in
    let used_materials :=
      map (fun x => (fst (fst x), snd (fst x))) (binary64.used_table s1) in
    let confirmed :=
      binary64.insert_production_history now product
        (binary64.Z2F unit_capacity) total_quantity used_materials d in
    let deleted :=
      binary64.delete_production_history_and_restore (snd confirmed)
                                                     (fst confirmed) in
    used_materials
    = map (fun e => (fst e,
                     PrimFloat.mul
                       (PrimFloat.mul (snd e) (binary64.Z2F unit_capacity))
                       (binary64.Z2F total_quantity)))
          formula_df
    /\ binary64.tbl_inventory (fst confirmed)
       = fold_left
           (fun inv m => binary64.update_inventory_sub (snd m) (fst m) inv)
           used_materials (binary64.tbl_inventory d)
    /\ binary64.tbl_inventory (fst deleted)
       = fold_left
           (fun inv m => binary64.update_inventory_add (snd m) (fst m) inv)
           used_materials (binary64.tbl_inventory (fst confirmed))
    /\ (formula_df <> [] ->
        snd deleted = (true, binary64.msg_history_deleted (snd confirmed))
        /\ binary64.tbl_production_history (fst deleted)
           = binary64.tbl_production_history d
        /\ binary64.tbl_formula (fst deleted) = binary64.tbl_formula d
        /\ binary64.tbl_transactions (fst deleted)
           = binary64.tbl_transactions d)
    /\ (deductions_exact used_materials (binary64.tbl_inventory d) = true ->
        restorations_exact used_materials
                           (binary64.tbl_inventory (fst confirmed)) = true ->
        forall i r,
          nth_error (binary64.tbl_inventory d) i = Some r ->
          exists r',
            nth_error (binary64.tbl_inventory (fst deleted)) i = Some r'
            /\ without_stock_f r' = without_stock_f r
            /\ value (binary64.inventory.재고량_g r')
               = value (binary64.inventory.재고량_g r)).
Proof.
  intros series_sum now product cap qty d s. cbv zeta.
  rewrite calc_button_result_f. cbn [snd binary64.used_table].
  rewrite map_map. cbn [fst snd].
  set (used := map (fun e => (fst e,
                              PrimFloat.mul
                                (PrimFloat.mul (snd e) (binary64.Z2F cap))
                                (binary64.Z2F qty)))
                   (binary64.get_formula_df d product)).
  unfold binary64.insert_production_history. cbn [fst snd].
  set (new_id := autoincrement (binary64.seq_production_history d)
                   (map binary64.production_history.id
                        (binary64.tbl_production_history d))).
  set (h := binary64.production_history.mk new_id product (binary64.Z2F cap)
                                           qty now).
  set (inv1 := fold_left
                 (fun inv m =>
                    binary64.update_inventory_sub (snd m) (fst m) inv)
                 used (binary64.tbl_inventory d)).
  assert (Fresh : ~ In (binary64.production_history.id h)
                       (map binary64.production_history.id
                            (binary64.tbl_production_history d)))
    by apply (autoincrement_fresh binary64.production_history.id).
  assert (F : find (fun x => Z.eqb (binary64.production_history.id x) new_id)
                   (binary64.tbl_production_history d ++ [h]) = Some h)
    by apply (find_snoc_fresh binary64.production_history.id _ h Fresh).
  assert (G : binary64.delete_production_history_row new_id
                (binary64.tbl_production_history d ++ [h])
              = binary64.tbl_production_history d)
    by apply (filter_snoc_fresh binary64.production_history.id _ h Fresh).
  unfold binary64.delete_production_history_and_restore,
    binary64.select_production_history.
  cbn [binary64.tbl_production_history binary64.tbl_inventory
       binary64.tbl_formula binary64.tbl_transactions].
  rewrite F.
  cbn [binary64.production_history.제품명 binary64.production_history.용량_g
       binary64.production_history.수량 h].
  change (binary64.get_formula_df (binary64.mkdb _ (binary64.tbl_formula d)
                                                 _ _ _ _) product)
    with (binary64.get_formula_df d product).
  assert (R : forall inv,
             fold_left
               (fun inv r =>
                  let ingr := fst r in
                  let usage_per_unit := snd r in
                  let used_amount :=
                    PrimFloat.mul
                      (PrimFloat.mul usage_per_unit (binary64.Z2F cap))
                      (binary64.Z2F qty) in
                  binary64.update_inventory_add used_amount ingr inv)
               (binary64.get_formula_df d product) inv
             = fold_left
                 (fun inv m =>
                    binary64.update_inventory_add (snd m) (fst m) inv)
                 used inv)
    by (intro inv; apply restore_loop_f).
  assert (Val : forall inv2,
             inv2 = fold_left
                      (fun inv m =>
                         binary64.update_inventory_add (snd m) (fst m) inv)
                      used inv1 ->
             deductions_exact used (binary64.tbl_inventory d) = true ->
             restorations_exact used inv1 = true ->
             forall i r,
               nth_error (binary64.tbl_inventory d) i = Some r ->
               exists r',
                 nth_error inv2 i = Some r'
                 /\ without_stock_f r' = without_stock_f r
                 /\ value (binary64.inventory.재고량_g r')
                    = value (binary64.inventory.재고량_g r)).
  { intros inv2 E2 X1 X2 i r Hr.
    assert (I : map exact_inventory_row inv2
                = map exact_inventory_row (binary64.tbl_inventory d)).
    { rewrite E2, (exact_restorations _ _ X2). unfold inv1.
      rewrite (exact_deductions _ _ X1).
      rewrite fold_update_inventory_add_list, fold_update_inventory_sub,
        shift_stock_shift.
      apply shift_stock_zero. intro m. ring. }
    assert (W : map without_stock_f inv2
                = map without_stock_f (binary64.tbl_inventory d)).
    { rewrite E2. unfold inv1.
      now rewrite without_stock_f_adds, without_stock_f_subs. }
    apply (f_equal (fun l => nth_error l i)) in I, W.
    rewrite !nth_error_map, Hr in I, W. cbn [option_map] in I, W.
    destruct (nth_error inv2 i) as [r' |]; [| discriminate].
    cbn [option_map] in I, W. apply some_eq in I, W.
    exists r'. split; [reflexivity |]. split; [exact W |].
    exact (f_equal inventory.재고량_g I). }
  split; [reflexivity |]. split; [reflexivity |].
  destruct (binary64.get_formula_df d product) as [| e l] eqn:Fo.
  - cbn [fst snd binary64.tbl_inventory] in *.
    split; [reflexivity |]. split; [intro NE; contradiction |].
    apply Val. reflexivity.
  - cbn [fst snd binary64.tbl_inventory binary64.tbl_production_history
         binary64.tbl_formula binary64.tbl_transactions].
    split; [apply R |]. split; [intros _; repeat split; exact G |].
    apply Val. apply R.
Qed.

Lemma C2_witness :
  let used_materials :=
    map (fun x => (fst (fst x), snd (fst x)))
        (binary64.used_table
           (snd (fst (binary64.calc_button binary64.sum_from_left
                        (binary64.get_formula_df hundred_db "Cream-X")
                        50 10 hundred_db
                        (binary64.mksession false [] false))))) in
  let confirmed :=
    binary64.insert_production_history "t9" "Cream-X" (binary64.Z2F 50) 10
                                       used_materials hundred_db in
  exists r',
    nth_error
      (binary64.tbl_inventory
         (fst (binary64.delete_production_history_and_restore
                 (snd confirmed) (fst confirmed)))) 1 = Some r'
    /\ value (binary64.inventory.재고량_g r') = value 5.
Proof.
  cbv zeta.
  destruct (C2_confirm_then_delete_restores_stock_when_no_update_rounds
              binary64.sum_from_left "t9" "Cream-X" 50 10 hundred_db
              (binary64.mksession false [] false))
    as [_ [_ [_ [_ H]]]].
  destruct (H ltac:(vm_compute; reflexivity) ltac:(vm_compute; reflexivity)
              1%nat
              (binary64.inventory.mk 2 "Oil-A" 5 None None None None None)
              eq_refl)
    as [r' [H1 [_ H3]]].
  exists r'. split; [exact H1 | exact H3].
Defined.

(** The claim as first stated fails where a sum rounds: with a stock of 0.9
    and a formula of 0.2 per unit, confirm one unit of capacity 1 and delete
    the run.  The stock goes to 0.7 and comes back as 0.8999999999999999. *)
Lemma C2_counterexample :
  let used_materials :=
    map (fun x => (fst (fst x), snd (fst x)))
        (binary64.used_table
           (snd (fst (binary64.calc_button binary64.sum_from_left
                        (binary64.get_formula_df nine_tenths_db "Cream-X")
                        1 1 nine_tenths_db
                        (binary64.mksession false [] false))))) in
  let confirmed :=
    binary64.insert_production_history "t9" "Cream-X" (binary64.Z2F 1) 1
                                       used_materials nine_tenths_db in
  let deleted :=
    binary64.delete_production_history_and_restore (snd confirmed)
                                                   (fst confirmed) in
  snd deleted = (true, binary64.msg_history_deleted 1)
  /\ map binary64.inventory.재고량_g (binary64.tbl_inventory nine_tenths_db)
     = [0x1.ccccccccccccdp-1%float]
  /\ map binary64.inventory.재고량_g (binary64.tbl_inventory (fst confirmed))
     = [0x1.6666666666666p-1%float]
  /\ map binary64.inventory.재고량_g (binary64.tbl_inventory (fst deleted))
     = [0x1.cccccccccccccp-1%float]
  /\ value 0x1.cccccccccccccp-1 <> value 0x1.ccccccccccccdp-1.
Proof.
  cbv zeta.
  split; [vm_compute; reflexivity |].
  split; [reflexivity |].
  split; [vm_compute; reflexivity |].
  split; [vm_compute; reflexivity |].
  intro H. apply (f_equal this) in H. vm_compute in H. discriminate.
Qed.






(** The comparison is made on the rounded numbers.  With a usage of 0.1 per
    gram, 50 g per unit and 10 units the required quantity is
    (0.1 * 50) * 10 = 50.0 in binary64, and a stock of 50 is sufficient,
    although the product of the three values, taken exactly, lies above
    50. *)
Example feasibility_at_the_boundary :
  let s' :=
    snd (fst (binary64.calc_button binary64.sum_from_left
                (binary64.get_formula_df fifty_db "Cream-X") 50 10
                fifty_db (binary64.mksession false [] false))) in
  binary64.used_table s' = [("Oil-A", 0x1.9p+5%float, 0x1.9p+5%float)]
  /\ binary64.sufficient s' = true
  /\ value 0x1.9p+5 < value 0x1.999999999999ap-4 * Z2Qc 50 * Z2Qc 10.
Proof.
  cbv zeta. split; [vm_compute; reflexivity |].
  split; [vm_compute; reflexivity |].
  vm_compute. reflexivity.
Qed.

(** C6.  When the run with the given id exists (run ids being unique) and
    the formula table has no entry for its product,
    [delete_production_history_and_restore] answers [False] with the
    "no formula" message and returns the database as it was: the run row is
    still there and no stock has moved. *)
Theorem C6_delete_run_without_formula_changes_nothing :
  forall (hist_id : Z) (d : database) (h : production_history.row),
    NoDup (map production_history.id (tbl_production_history d)) ->
    In h (tbl_production_history d) ->
    production_history.id h = hist_id ->
    (forall f, In f (tbl_formula d) ->
               formula.제품명 f <> production_history.제품명 h) ->
    delete_production_history_and_restore hist_id d
    = (d, (false, msg_no_formula (production_history.제품명 h))).
Proof.
  intros hist_id d h U Hin Hid Hnone. subst hist_id.
  unfold delete_production_history_and_restore, select_production_history.
  rewrite (find_key_unique production_history.id _ h U Hin).
  now rewrite (get_formula_df_none d _ Hnone).
Qed.

Lemma C6_witness :
  delete_production_history_and_restore 3 twin_db
  = (twin_db, (false, msg_no_formula "Gel-Z")).
Proof.
  apply (C6_delete_run_without_formula_changes_nothing
           3 twin_db (production_history.mk 3 "Gel-Z" (Z2Qc 30) 4 "t0")).
  - repeat constructor; cbn; intuition discriminate.
  - right. right. left. reflexivity.
  - reflexivity.
  - intros f [<- | [<- | []]]; discriminate.
Defined.





(** C9.  When no inventory row carries the material name,
    [record_transaction] still appends the transaction row (under a fresh id)
    and reports success, and the inventory table comes back exactly as it
    was: the UPDATE matched no row. *)
Theorem C9_record_for_unknown_material_keeps_inventory :
  forall (now : timestamp) (name ty : string) (q : Qc) (memo : string)
         (d : database),
    (forall r, In r (tbl_inventory d) -> inventory.원료명 r <> name) ->
    let res := record_transaction now name ty q memo d in
    tbl_inventory (fst res) = tbl_inventory d
    /\ (exists new_id,
           tbl_transactions (fst res)
           = tbl_transactions d
             ++ [transactions.mk new_id name ty q now (Some memo)]
           /\ ~ In new_id (map transactions.id (tbl_transactions d)))
    /\ snd res = st_success (msg_recorded ty name q memo).
Proof.
  intros now name ty q memo d H. cbn. repeat split.
  - destruct (String.eqb ty "입고");
      [now apply update_inventory_add_absent
      | now apply update_inventory_sub_absent].
  - eexists. split; [reflexivity |].
    apply (autoincrement_fresh transactions.id).
Qed.

Lemma C9_witness :
  tbl_inventory
    (fst (record_transaction "t3" "Wax" "입고" (Z2Qc 5) "" recorded_db))
  = tbl_inventory recorded_db.
Proof.
  apply (C9_record_for_unknown_material_keeps_inventory
           "t3" "Wax" "입고" (Z2Qc 5) "" recorded_db).
  intros r [<- | []]. discriminate.
Defined.



(** ** Further properties of the transaction page *)

Lemma find_after_delete {A : Type} (key : A -> Z) (l : list A) (x : Z) :
  find (fun a => Z.eqb (key a) x)
       (filter (fun a => negb (Z.eqb (key a) x)) l) = None.
Proof.
  apply find_key_none. intros a Ha. apply filter_In in Ha.
  destruct Ha as [_ Ha]. apply negb_true_iff in Ha. now apply Z.eqb_neq.
Qed.

(** X1.  Recording a transaction and then deleting the row it created (its
    id is the new value of the sequence) succeeds and puts the transaction
    table and the other tables back exactly as they were, for every material
    name, type text and quantity.  In the inventory only the stock of the
    rows of that name is written: it ends at (stock + quantity) - quantity
    for an inbound record and at (stock - quantity) + quantity otherwise,
    both operations in binary64, and so at the value it had whenever neither
    of the two rounds. *)
Theorem X1_record_then_delete_round_trip :
  forall (now : timestamp) (name ty : string) (q : float) (memo : string)
         (d : binary64.database),
    let recorded := fst (binary64.record_transaction now name ty q memo d) in
    let new_id := binary64.seq_transactions recorded in
    let deleted :=
      binary64.delete_transaction_and_restore_inventory new_id recorded in
    snd deleted = binary64.st_success (binary64.msg_transaction_deleted new_id)
    /\ binary64.tbl_transactions (fst deleted) = binary64.tbl_transactions d
    /\ binary64.tbl_formula (fst deleted) = binary64.tbl_formula d
    /\ binary64.tbl_production_history (fst deleted)
       = binary64.tbl_production_history d
    /\ (forall i r,
           nth_error (binary64.tbl_inventory d) i = Some r ->
           nth_error (binary64.tbl_inventory (fst deleted)) i
           = Some (if String.eqb (binary64.inventory.원료명 r) name
                   then binary64.inventory.set_재고량_g
                          (if String.eqb ty "입고"
                           then PrimFloat.sub
                                  (PrimFloat.add (binary64.inventory.재고량_g r)
                                                 q) q
                           else PrimFloat.add
                                  (PrimFloat.sub (binary64.inventory.재고량_g r)
                                                 q) q)
                          r
                   else r))
    /\ (forall i r,
           nth_error (binary64.tbl_inventory d) i = Some r ->
           (if String.eqb ty "입고"
            then exact_add (binary64.inventory.재고량_g r) q
                 && exact_sub (PrimFloat.add (binary64.inventory.재고량_g r) q)
                              q
            else exact_sub (binary64.inventory.재고량_g r) q
                 && exact_add (PrimFloat.sub (binary64.inventory.재고량_g r) q)
                              q) = true ->
           exists r',
             nth_error (binary64.tbl_inventory (fst deleted)) i = Some r'
             /\ value (binary64.inventory.재고량_g r')
                = value (binary64.inventory.재고량_g r)).
Proof.
  intros now name ty q memo d. cbv zeta.
  unfold binary64.record_transaction.
  cbn [fst binary64.seq_transactions].
  set (new_id := autoincrement (binary64.seq_transactions d)
                   (map binary64.transactions.id
                        (binary64.tbl_transactions d))).
  set (t := binary64.transactions.mk new_id name ty q now (Some memo)).
  assert (Fresh : ~ In (binary64.transactions.id t)
                       (map binary64.transactions.id
                            (binary64.tbl_transactions d)))
    by apply (autoincrement_fresh binary64.transactions.id).
  assert (F : find (fun u => Z.eqb (binary64.transactions.id u) new_id)
                   (binary64.tbl_transactions d ++ [t]) = Some t)
    by apply (find_snoc_fresh binary64.transactions.id _ t Fresh).
  assert (G : binary64.delete_transaction_row new_id
                (binary64.tbl_transactions d ++ [t])
              = binary64.tbl_transactions d)
    by apply (filter_snoc_fresh binary64.transactions.id _ t Fresh).
  unfold binary64.delete_transaction_and_restore_inventory,
    binary64.select_transaction.
  cbn [binary64.tbl_transactions binary64.tbl_inventory binary64.tbl_formula
       binary64.tbl_production_history].
  fold t. rewrite F, G.
  cbn [binary64.transactions.원료명 binary64.transactions.유형
       binary64.transactions.수량_g t fst snd binary64.tbl_inventory
       binary64.tbl_transactions binary64.tbl_formula
       binary64.tbl_production_history].
  split; [reflexivity |]. split; [reflexivity |]. split; [reflexivity |].
  split; [reflexivity |].
  assert (N : forall i r,
             nth_error (binary64.tbl_inventory d) i = Some r ->
             nth_error
               (if String.eqb ty "입고"
                then binary64.update_inventory_sub q name
                       (if String.eqb ty "입고"
                        then binary64.update_inventory_add q name
                               (binary64.tbl_inventory d)
                        else binary64.update_inventory_sub q name
                               (binary64.tbl_inventory d))
                else binary64.update_inventory_add q name
                       (if String.eqb ty "입고"
                        then binary64.update_inventory_add q name
                               (binary64.tbl_inventory d)
                        else binary64.update_inventory_sub q name
                               (binary64.tbl_inventory d))) i
             = Some (if String.eqb (binary64.inventory.원료명 r) name
                     then binary64.inventory.set_재고량_g
                            (if String.eqb ty "입고"
                             then PrimFloat.sub
                                    (PrimFloat.add
                                       (binary64.inventory.재고량_g r) q) q
                             else PrimFloat.add
                                    (PrimFloat.sub
                                       (binary64.inventory.재고량_g r) q) q)
                            r
                     else r)).
  { intros i r Hr.
    unfold binary64.update_inventory_sub, binary64.update_inventory_add.
    destruct (String.eqb ty "입고"); rewrite map_map, nth_error_map, Hr;
      cbn [option_map];
      destruct (String.eqb (binary64.inventory.원료명 r) name) eqn:E;
      cbn [binary64.inventory.원료명 binary64.inventory.set_재고량_g
           binary64.inventory.재고량_g binary64.inventory.id];
      rewrite E; reflexivity. }
  split; [exact N |].
  intros i r Hr X. rewrite (N i r Hr). eexists. split; [reflexivity |].
  destruct (String.eqb (binary64.inventory.원료명 r) name); [| reflexivity].
  cbn [binary64.inventory.재고량_g binary64.inventory.set_재고량_g].
  destruct (String.eqb ty "입고"); apply andb_true_iff in X;
    destruct X as [X1 X2].
  - rewrite (exact_sub_value _ _ X2), (exact_add_value _ _ X1). ring.
  - rewrite (exact_add_value _ _ X2), (exact_sub_value _ _ X1). ring.
Qed.

Lemma X1_witness :
  exists r',
    nth_error
      (binary64.tbl_inventory
         (fst (binary64.delete_transaction_and_restore_inventory
                 (binary64.seq_transactions
                    (fst (binary64.record_transaction "t1" "Oil-A" "출고" 30
                                                      "" hundred_db)))
                 (fst (binary64.record_transaction "t1" "Oil-A" "출고" 30 ""
                                                   hundred_db))))) 1
    = Some r'
    /\ value (binary64.inventory.재고량_g r') = value 5.
Proof.
  apply (proj2 (proj2 (proj2 (proj2 (proj2
           (X1_record_then_delete_round_trip "t1" "Oil-A" "출고" 30 ""
                                             hundred_db)))))
           1%nat (binary64.inventory.mk 2 "Oil-A" 5 None None None None None)
           eq_refl).
  vm_compute. reflexivity.
Defined.

(** X2.  Deleting the same transaction id a second time reports "not found"
    and changes nothing, whether the first deletion found the row or not: a
    reversal is never applied twice. *)
Theorem X2_second_delete_of_transaction_is_not_found :
  forall (trans_id : Z) (d : database),
    let d1 := fst (delete_transaction_and_restore_inventory trans_id d) in
    delete_transaction_and_restore_inventory trans_id d1
    = (d1, st_error msg_transaction_not_found).
Proof.
  intros trans_id d. cbv zeta.
  unfold delete_transaction_and_restore_inventory at 2 3.
  unfold select_transaction.
  destruct (find _ (tbl_transactions d)) as [t |] eqn:F; cbn [fst].
  - unfold delete_transaction_and_restore_inventory, select_transaction.
    cbn [tbl_transactions]. unfold delete_transaction_row.
    now rewrite (find_after_delete transactions.id).
  - unfold delete_transaction_and_restore_inventory, select_transaction.
    now rewrite F.
Qed.

Lemma run_call_seq_mono (d : database) (c : transaction_call) :
  (seq_transactions d <= seq_transactions (run_call d c))%Z.
Proof.
  destruct c as [now name ty q memo | trans_id]; cbn [run_call].
  - unfold record_transaction, autoincrement. cbn [fst seq_transactions]. lia.
  - unfold delete_transaction_and_restore_inventory.
    destruct (select_transaction _ _) as [[[ingr ttype] amt] |];
      cbn [fst seq_transactions]; lia.
Qed.

Lemma run_call_below_seq (d : database) (c : transaction_call) :
  transaction_ids_below_seq d -> transaction_ids_below_seq (run_call d c).
Proof.
  unfold transaction_ids_below_seq. intro B.
  destruct c as [now name ty q memo | trans_id]; cbn [run_call].
  - unfold record_transaction. cbn [fst seq_transactions tbl_transactions].
    apply Forall_app. split.
    + apply Forall_forall. intros u Hu.
      pose proof (autoincrement_above transactions.id (seq_transactions d)
                    _ u Hu). lia.
    + constructor; [cbn; lia | constructor].
  - unfold delete_transaction_and_restore_inventory.
    destruct (select_transaction _ _) as [[[ingr ttype] amt] |];
      cbn [fst seq_transactions tbl_transactions]; [| exact B].
    unfold delete_transaction_row. rewrite Forall_forall in *.
    intros u Hu. apply B. apply filter_In in Hu. tauto.
Qed.

Lemma run_calls_seq_mono (calls : list transaction_call) (d : database) :
  (seq_transactions d <= seq_transactions (run_calls calls d))%Z.
Proof.
  revert d. induction calls as [| c calls IH]; intro d; [cbn; lia |].
  change (run_calls (c :: calls) d) with (run_calls calls (run_call d c)).
  pose proof (run_call_seq_mono d c). specialize (IH (run_call d c)). lia.
Qed.

Lemma run_calls_below_seq (calls : list transaction_call) (d : database) :
  transaction_ids_below_seq d ->
  transaction_ids_below_seq (run_calls calls d).
Proof.
  revert d. induction calls as [| c calls IH]; intros d B; [exact B |].
  change (run_calls (c :: calls) d) with (run_calls calls (run_call d c)).
  apply IH. now apply run_call_below_seq.
Qed.

(** X3.  Transaction ids are never reused.  Start from a table whose ids do
    not exceed the stored sequence value.  After any calls the same still
    holds (and ids that were unique are still unique), and a transaction
    recorded after any further calls gets an id
    larger than the id of every row that was in the table at the earlier
    point, also of rows deleted in between. *)
Theorem X3_transaction_ids_are_never_reused :
  forall (calls1 calls2 : list transaction_call) (d : database)
         (now : timestamp) (name ty : string) (q : Qc) (memo : string),
    transaction_ids_below_seq d ->
    let d1 := run_calls calls1 d in
    let d2 := run_calls calls2 d1 in
    let d3 := fst (record_transaction now name ty q memo d2) in
    transaction_ids_below_seq d3
    /\ (transaction_ids_unique d -> transaction_ids_unique d3)
    /\ exists t,
         tbl_transactions d3 = tbl_transactions d2 ++ [t]
         /\ forall u, In u (tbl_transactions d1) ->
                      (transactions.id u < transactions.id t)%Z.
Proof.
  intros calls1 calls2 d now name ty q memo B. cbv zeta.
  pose proof (run_calls_below_seq calls1 d B) as B1.
  pose proof (run_calls_seq_mono calls2 (run_calls calls1 d)) as M.
  split; [| split].
  - apply (run_call_below_seq _ (call_record now name ty q memo)).
    now apply run_calls_below_seq.
  - intro U.
    apply (run_call_ledger _ (call_record now name ty q memo)).
    apply run_calls_ledger. now apply run_calls_ledger.
  - unfold record_transaction. cbn [fst tbl_transactions].
    eexists. split; [reflexivity |].
    intros u Hu. cbn [transactions.id]. unfold autoincrement.
    unfold transaction_ids_below_seq in B1. rewrite Forall_forall in B1.
    specialize (B1 u Hu). lia.
Qed.

Lemma X3_witness :
  exists t,
    tbl_transactions
      (fst (record_transaction "t3" "Oil-A" "입고" (Z2Qc 5) ""
              (run_calls [call_delete 2] recorded_db)))
    = tbl_transactions (run_calls [call_delete 2] recorded_db) ++ [t]
    /\ forall u, In u (tbl_transactions recorded_db) ->
                 (transactions.id u < transactions.id t)%Z.
Proof.
  apply (X3_transaction_ids_are_never_reused
           [] [call_delete 2] recorded_db "t3" "Oil-A" "입고" (Z2Qc 5) "").
  repeat constructor; cbn; lia.
Defined.

(** ** Further properties of production runs *)

Lemma without_stock_shift (f : string -> Qc) (inv : list inventory.row) :
  map without_stock (shift_stock f inv) = map without_stock inv.
Proof.
  unfold shift_stock. rewrite map_map. apply map_ext. intro r.
  destruct r; reflexivity.
Qed.


(** X4.  When no production run has the given id,
    [delete_production_history_and_restore] answers [False] with the
    "not found" message and returns the database as it was. *)
Theorem X4_delete_unknown_run_changes_nothing :
  forall (hist_id : Z) (d : database),
    (forall h, In h (tbl_production_history d) ->
               production_history.id h <> hist_id) ->
    delete_production_history_and_restore hist_id d
    = (d, (false, msg_history_not_found)).
Proof.
  intros hist_id d H.
  unfold delete_production_history_and_restore, select_production_history.
  now rewrite (find_key_none production_history.id _ hist_id H).
Qed.

Lemma X4_witness :
  delete_production_history_and_restore 9 twin_db
  = (twin_db, (false, msg_history_not_found)).
Proof.
  apply X4_delete_unknown_run_changes_nothing.
  intros h [<- | [<- | [<- | []]]]; discriminate.
Defined.






(** X7.  After a deletion of a production run that succeeded, deleting the
    same id again is answered with "not found" and changes nothing: a run's
    materials are never restored twice. *)
Theorem X7_second_delete_of_run_is_not_found :
  forall (hist_id : Z) (d : database),
    fst (snd (delete_production_history_and_restore hist_id d)) = true ->
    let d1 := fst (delete_production_history_and_restore hist_id d) in
    delete_production_history_and_restore hist_id d1
    = (d1, (false, msg_history_not_found)).
Proof.
  intros hist_id d OK. cbv zeta.
  unfold delete_production_history_and_restore in OK |- * at 2 3.
  unfold select_production_history in *.
  destruct (find _ (tbl_production_history d)) as [h |] eqn:F;
    [| discriminate].
  destruct (get_formula_df d (production_history.제품명 h)) as [| e l];
    [discriminate |].
  cbn [fst].
  unfold delete_production_history_and_restore, select_production_history.
  cbn [tbl_production_history]. unfold delete_production_history_row.
  now rewrite (find_after_delete production_history.id).
Qed.

Lemma X7_witness :
  delete_production_history_and_restore 1
    (fst (delete_production_history_and_restore 1 twin_db))
  = (fst (delete_production_history_and_restore 1 twin_db),
     (false, msg_history_not_found)).
Proof.
  apply X7_second_delete_of_run_is_not_found. reflexivity.
Defined.






(** X9.  A confirmation uses its plan up.  When a click on the confirm button
    has produced a run (it reported the production), the session it leaves
    has no plan, and a further click on the confirm button, whatever the
    widgets hold by then, changes neither the database nor the session:
    one calculation can be confirmed once. *)
Theorem X9_confirmed_plan_cannot_be_confirmed_again :
  forall (now1 now2 : timestamp) (p1 p2 : string)
         (cap1 qty1 cap2 qty2 new_id : Z) (d : database) (s : session_state),
    snd (production_page now1 p1 cap1 qty1 click_confirm d s)
    = [st_success (msg_produced p1 qty1 new_id)] ->
    let d1 := fst (fst (production_page now1 p1 cap1 qty1 click_confirm d s)) in
    let s1 := snd (fst (production_page now1 p1 cap1 qty1 click_confirm d s)) in
    s1 = mksession false [] false
    /\ fst (production_page now2 p2 cap2 qty2 click_confirm d1 s1) = (d1, s1).
Proof.
  intros now1 now2 p1 p2 cap1 qty1 cap2 qty2 new_id d s H. cbv zeta.
  remember (production_page now1 p1 cap1 qty1 click_confirm d s) as R eqn:ER.
  unfold production_page in ER.
  destruct (String.eqb p1 ""); [subst R; discriminate |].
  destruct (get_formula_df d p1) as [| e l]; [subst R; discriminate |].
  destruct (calc_done s && sufficient s); [| subst R; discriminate].
  unfold confirm_button in ER.
  destruct (insert_production_history _ _ _ _ _ _) as [d' id'].
  subst R. cbn [fst snd]. split; [reflexivity |].
  unfold production_page. destruct (String.eqb p2 ""); [reflexivity |].
  destruct (get_formula_df d' p2) as [| e2 l2]; reflexivity.
Qed.

Lemma X9_witness :
  fst (production_page "t2" "Cream-X" 50 10 click_confirm
         (fst (fst (production_page "t1" "Cream-X" 50 10 click_confirm
                      recorded_db (mksession true [] true))))
         (snd (fst (production_page "t1" "Cream-X" 50 10 click_confirm
                      recorded_db (mksession true [] true)))))
  = fst (production_page "t1" "Cream-X" 50 10 click_confirm
           recorded_db (mksession true [] true)).
Proof.
  rewrite (surjective_pairing
             (fst (production_page "t1" "Cream-X" 50 10 click_confirm
                     recorded_db (mksession true [] true)))) at 3.
  apply (X9_confirmed_plan_cannot_be_confirmed_again
           "t1" "t2" "Cream-X" "Cream-X" 50 10 50 10 1 recorded_db
           (mksession true [] true)).
  reflexivity.
Defined.

Lemma In_unique (l : list string) (x : string) : In x (unique l) <-> In x l.
Proof.
  induction l as [| y l IH]; [reflexivity |].
  cbn [unique In]. rewrite filter_In, IH, negb_true_iff, String.eqb_neq.
  destruct (string_dec y x) as [E | NE]; [tauto |].
  split; [tauto |]. intros [H | H]; [tauto |]. right. split; [exact H |].
  intro E. apply NE. now symmetry.
Qed.

Lemma NoDup_unique (l : list string) : NoDup (unique l).
Proof.
  induction l as [| y l IH]; cbn [unique]; constructor.
  - rewrite filter_In, negb_true_iff, String.eqb_neq. tauto.
  - now apply NoDup_filter.
Qed.

Lemma get_formula_df_nonempty (d : database) (product_name : string) :
  get_formula_df d product_name <> []
  <-> In product_name (map formula.제품명 (tbl_formula d)).
Proof.
  unfold get_formula_df. induction (tbl_formula d) as [| f l IH].
  - cbn. tauto.
  - cbn [filter map In].
    destruct (String.eqb_spec (formula.제품명 f) product_name) as [E | NE].
    + cbn [map]. split; [now left | discriminate].
    + rewrite IH. tauto.
Qed.

(** X10.  The product list offered on the production page names each product
    once, and names exactly the products that have at least one formula
    entry.  Hence, for a listed product whose name is not the empty text, a
    click on the calculation button always runs the calculation: the
    "no formula" warning cannot appear. *)
Theorem X10_product_list_is_products_with_formula :
  forall d : database,
    NoDup (get_product_list d)
    /\ (forall p, In p (get_product_list d) <-> get_formula_df d p <> [])
    /\ (forall now p cap qty s,
           In p (get_product_list d) -> p <> "" ->
           production_page now p cap qty click_calc d s
           = calc_button (get_formula_df d p) cap qty d s).
Proof.
  intro d. unfold get_product_list. split; [apply NoDup_unique |]. split.
  - intro p. rewrite In_unique. symmetry. apply get_formula_df_nonempty.
  - intros now p cap qty s Hin NE. unfold production_page.
    apply String.eqb_neq in NE. rewrite NE.
    apply In_unique, get_formula_df_nonempty in Hin.
    destruct (get_formula_df d p) as [| e l]; [contradiction | reflexivity].
Qed.

Lemma X10_witness :
  production_page "t1" "Balm-Y" 20 3 click_calc twin_db
                  (mksession false [] false)
  = calc_button (get_formula_df twin_db "Balm-Y") 20 3 twin_db
                (mksession false [] false).
Proof.
  apply (proj2 (proj2 (X10_product_list_is_products_with_formula twin_db))).
  - right. left. reflexivity.
  - discriminate.
Defined.

(** The errors the calculation loop has shown when it ends. *)
Lemma calc_loop_shown (inv_df : list inventory.row)
    (unit_capacity total_quantity : Z) (formula_df : list (string * Qc))
    (acc : list (string * Qc * Qc) * bool * list st_call) :
  snd (fold_left (calc_step inv_df unit_capacity total_quantity) formula_df acc)
  = snd acc
    ++ map (fun x => st_error (msg_shortage (fst (fst x)) (snd (fst x))
                                            (snd x)))
           (filter (fun x => Qcltb (snd x) (snd (fst x)))
                   (map (fun e => (fst e,
                                   snd e * Z2Qc unit_capacity
                                   * Z2Qc total_quantity,
                                   current_stock inv_df (fst e)))
                        formula_df)).
Proof.
  revert acc. induction formula_df as [| e l IH]; intro acc;
    cbn [fold_left map filter].
  - now rewrite app_nil_r.
  - rewrite IH. destruct acc as [[t su] sh]. unfold calc_step. cbv zeta.
    cbn [fst snd].
    destruct (Qcltb (current_stock inv_df (fst e))
                    (snd e * Z2Qc unit_capacity * Z2Qc total_quantity));
      cbn [fst snd map]; [now rewrite <- app_assoc | reflexivity].
Qed.

Lemma forallb_negb_filter {A : Type} (p : A -> bool) (l : list A) :
  forallb (fun x => negb (p x)) l = true <-> filter p l = [].
Proof.
  induction l as [| x l IH]; cbn [forallb filter]; [tauto |].
  destruct (p x); cbn [negb andb]; [split; discriminate | exact IH].
Qed.

(** X11.  The calculation shows one shortage error for each entry of its
    table whose available stock is below the required quantity, in table
    order and with the entry's material and two quantities, and shows
    nothing else; [sufficient] is set exactly when it shows no error. *)
Theorem X11_shortage_errors_match_the_table :
  forall (formula_df : list (string * Qc)) (unit_capacity total_quantity : Z)
         (d : database) (s : session_state),
    let res := calc_button formula_df unit_capacity total_quantity d s in
    snd res
    = map (fun x => st_error (msg_shortage (fst (fst x)) (snd (fst x))
                                           (snd x)))
          (filter (fun x => Qcltb (snd x) (snd (fst x)))
                  (used_table (snd (fst res))))
    /\ (sufficient (snd (fst res)) = true <-> snd res = []).
Proof.
  intros formula_df cap qty d s. cbv zeta.
  assert (S : snd (calc_button formula_df cap qty d s)
              = map (fun x => st_error (msg_shortage (fst (fst x))
                                                     (snd (fst x)) (snd x)))
                    (filter (fun x => Qcltb (snd x) (snd (fst x)))
                            (map (fun e => (fst e,
                                            snd e * Z2Qc cap * Z2Qc qty,
                                            current_stock (tbl_inventory d)
                                                          (fst e)))
                                 formula_df))).
  { unfold calc_button, get_inventory_df.
    pose proof (calc_loop_shown (tbl_inventory d) cap qty formula_df
                                ([], true, [])) as L.
    destruct (fold_left _ formula_df _) as [[t su] sh].
    cbn [snd app] in L |- *. exact L. }
  rewrite S, calc_button_result. cbn [snd used_table sufficient].
  split; [reflexivity |].
  rewrite forallb_negb_filter.
  assert (M : forall (A B : Type) (g : A -> B) (l : list A),
             map g l = [] <-> l = []).
  { intros A B g l. destruct l; cbn; split; congruence. }
  rewrite M. clear.
  induction formula_df as [| e l IH]; cbn [map filter fst snd]; [tauto |].
  destruct (Qcltb _ _); [split; discriminate | exact IH].
Qed.

Lemma without_stock_update_add (amt : Qc) (name : string)
    (inv : list inventory.row) :
  map without_stock (update_inventory_add amt name inv)
  = map without_stock inv.
Proof. rewrite update_inventory_add_shift. apply without_stock_shift. Qed.

Lemma without_stock_update_sub (amt : Qc) (name : string)
    (inv : list inventory.row) :
  map without_stock (update_inventory_sub amt name inv)
  = map without_stock inv.
Proof. rewrite update_inventory_sub_shift. apply without_stock_shift. Qed.

(** X12.  The four operations that move stock never add, remove, reorder or
    rename an inventory row and never write a column other than the stock:
    after any sequence of record and delete calls, after a production
    confirmation with any list of materials, and after a production-run
    deletion with any outcome, the inventory rows with their stock blanked
    are the same list as before. *)
Theorem X12_ledger_operations_write_only_stock :
  forall d : database,
    (forall calls,
        map without_stock (tbl_inventory (run_calls calls d))
        = map without_stock (tbl_inventory d))
    /\ (forall now product cap qty used_materials,
           map without_stock
               (tbl_inventory
                  (fst (insert_production_history now product cap qty
                                                  used_materials d)))
           = map without_stock (tbl_inventory d))
    /\ (forall hist_id,
           map without_stock
               (tbl_inventory
                  (fst (delete_production_history_and_restore hist_id d)))
           = map without_stock (tbl_inventory d)).
Proof.
  intro d. split; [| split].
  - intro calls. revert d. induction calls as [| c calls IH]; intro d;
      [reflexivity |].
    change (run_calls (c :: calls) d) with (run_calls calls (run_call d c)).
    rewrite IH. destruct c as [now name ty q memo | trans_id]; cbn [run_call].
    + unfold record_transaction. cbn [fst tbl_inventory].
      destruct (String.eqb ty "입고");
        [apply without_stock_update_add | apply without_stock_update_sub].
    + unfold delete_transaction_and_restore_inventory.
      destruct (select_transaction _ _) as [[[ingr ttype] amt] |];
        [| reflexivity].
      cbn [fst tbl_inventory].
      destruct (String.eqb ttype "입고");
        [apply without_stock_update_sub | apply without_stock_update_add].
  - intros now product cap qty used. unfold insert_production_history.
    cbn [fst tbl_inventory]. rewrite fold_update_inventory_sub.
    apply without_stock_shift.
  - intro hist_id. unfold delete_production_history_and_restore.
    destruct (select_production_history _ _) as [[[p cap] qty] |];
      [| reflexivity].
    destruct (get_formula_df d p) as [| e l] eqn:G; [reflexivity |].
    cbn [fst tbl_inventory]. rewrite fold_update_inventory_add.
    apply without_stock_shift.
Qed.

(** ** The inventory editor *)

Lemma violates_by_ids (inv inv' : list inventory.row) (e : edited.row) :
  map inventory.id inv' = map inventory.id inv ->
  violates_not_null inv' e = violates_not_null inv e.
Proof.
  intro H. unfold violates_not_null.
  destruct (edited.id e) as [i |]; [| reflexivity].
  destruct (edited.원료명 e); [reflexivity |].
  assert (X : forall l,
             existsb (fun r => Z.eqb (inventory.id r) i) l
             = existsb (fun z => Z.eqb z i) (map inventory.id l)).
  { induction l as [| r l IH]; [reflexivity |]. cbn. now rewrite IH. }
  now rewrite !X, H.
Qed.

Lemma update_inventory_where_id_rows (e : edited.row)
    (inv : list inventory.row) :
  violates_not_null inv e = false ->
  update_inventory_where_id e inv = Some (map (fun r => apply_edit r e) inv).
Proof.
  unfold violates_not_null, update_inventory_where_id, apply_edit.
  destruct (edited.id e) as [i |]; [| now rewrite map_id].
  destruct (edited.원료명 e); [reflexivity |].
  intros ->. now rewrite map_id.
Qed.

Lemma update_inventory_where_id_fails (e : edited.row)
    (inv : list inventory.row) :
  violates_not_null inv e = true -> update_inventory_where_id e inv = None.
Proof.
  unfold violates_not_null, update_inventory_where_id.
  destruct (edited.id e) as [i |]; [| discriminate].
  destruct (edited.원료명 e); [discriminate |]. now intros ->.
Qed.

Lemma apply_edit_id (r : inventory.row) (e : edited.row) :
  inventory.id (apply_edit r e) = inventory.id r.
Proof.
  unfold apply_edit. destruct (edited.id e); [| reflexivity].
  destruct (edited.원료명 e); [| reflexivity].
  destruct (Z.eqb (inventory.id r) z); reflexivity.
Qed.

Lemma apply_edits_id (df : list edited.row) (r : inventory.row) :
  inventory.id (fold_left apply_edit df r) = inventory.id r.
Proof.
  revert r. induction df as [| e df IH]; intro r; [reflexivity |].
  cbn [fold_left]. now rewrite IH, apply_edit_id.
Qed.

Lemma update_loop_stays_failed (df : list edited.row) :
  fold_left
    (fun acc e =>
       match acc with
       | Some inv => update_inventory_where_id e inv
       | None => None
       end) df None = None.
Proof. induction df as [| e df IH]; [reflexivity | exact IH]. Qed.

Lemma update_loop_rows (df : list edited.row) (inv : list inventory.row) :
  (forall e, In e df -> violates_not_null inv e = false) ->
  fold_left
    (fun acc e =>
       match acc with
       | Some inv => update_inventory_where_id e inv
       | None => None
       end) df (Some inv)
  = Some (map (fun r => fold_left apply_edit df r) inv).
Proof.
  revert inv. induction df as [| e df IH]; intros inv H; cbn [fold_left].
  - now rewrite map_id.
  - rewrite (update_inventory_where_id_rows e inv)
      by (apply H; now left).
    rewrite IH.
    + now rewrite map_map.
    + intros e' He'. rewrite (violates_by_ids inv).
      * apply H. now right.
      * rewrite map_map. apply map_ext. intro r. apply apply_edit_id.
Qed.

Lemma update_loop_fails (df : list edited.row) (inv : list inventory.row) :
  (exists e, In e df /\ violates_not_null inv e = true) ->
  fold_left
    (fun acc e =>
       match acc with
       | Some inv => update_inventory_where_id e inv
       | None => None
       end) df (Some inv)
  = None.
Proof.
  revert inv. induction df as [| e df IH]; intros inv [x [Hx V]];
    [contradiction |].
  cbn [fold_left].
  destruct (violates_not_null inv e) eqn:Ve.
  - rewrite (update_inventory_where_id_fails e inv Ve).
    apply update_loop_stays_failed.
  - rewrite (update_inventory_where_id_rows e inv Ve). apply IH.
    destruct Hx as [-> | Hx]; [congruence |].
    exists x. split; [exact Hx |]. rewrite (violates_by_ids inv); [exact V |].
    rewrite map_map. apply map_ext. intro r. apply apply_edit_id.
Qed.

Lemma update_loop_cases (df : list edited.row) (inv : list inventory.row) :
  (forall e, In e df -> violates_not_null inv e = false)
  \/ (exists e, In e df /\ violates_not_null inv e = true).
Proof.
  induction df as [| e df [IH | [x [Hx V]]]].
  - left. intros e [].
  - destruct (violates_not_null inv e) eqn:Ve.
    + right. exists e. split; [now left | exact Ve].
    + left. intros e' [<- | He']; [exact Ve | now apply IH].
  - right. exists x. split; [now right | exact V].
Qed.

Lemma apply_edits_untouched (df : list edited.row) (r : inventory.row) :
  (forall e, In e df -> edited.id e <> Some (inventory.id r)) ->
  fold_left apply_edit df r = r.
Proof.
  induction df as [| e df IH]; intro H; [reflexivity |].
  cbn [fold_left].
  assert (E : apply_edit r e = r).
  { unfold apply_edit. destruct (edited.id e) as [i |] eqn:Ei; [| reflexivity].
    destruct (edited.원료명 e); [| reflexivity].
    destruct (Z.eqb_spec (inventory.id r) i) as [Er | _]; [| reflexivity].
    exfalso. apply (H e); [now left | now rewrite Er]. }
  rewrite E. apply IH. intros e' He'. apply H. now right.
Qed.

Lemma apply_edits_same (df : list edited.row) (inv : list inventory.row)
    (r : inventory.row) :
  NoDup (map inventory.id inv) -> In r inv ->
  (forall e, In e df -> exists x, In x inv /\ e = as_edited x) ->
  fold_left apply_edit df r = r.
Proof.
  intros ND Hr. induction df as [| e df IH]; intro H; [reflexivity |].
  cbn [fold_left].
  assert (E : apply_edit r e = r).
  { destruct (H e (or_introl eq_refl)) as [x [Hx ->]].
    unfold apply_edit, as_edited. cbn.
    destruct (Z.eqb_spec (inventory.id r) (inventory.id x)) as [E | _];
      [| reflexivity].
    assert (x = r).
    { pose proof (find_key_unique inventory.id inv x ND Hx) as F1.
      pose proof (find_key_unique inventory.id inv r ND Hr) as F2.
      rewrite E in F2. congruence. }
    subst x. destruct r; reflexivity. }
  rewrite E. apply IH. intros e' He'. apply H. now right.
Qed.

Lemma In_insert_by_원료명 (x r : inventory.row) (l : list inventory.row) :
  In x (insert_by_원료명 r l) <-> x = r \/ In x l.
Proof.
  induction l as [| y l IH]; cbn [insert_by_원료명 In].
  - split; intros [H | H]; auto.
  - destruct (String.leb (inventory.원료명 r) (inventory.원료명 y));
      cbn [In]; [| rewrite IH]; intuition congruence.
Qed.

Lemma In_order_by_원료명 (x : inventory.row) (l : list inventory.row) :
  In x (order_by_원료명 l) <-> In x l.
Proof.
  induction l as [| y l IH]; [reflexivity |].
  cbn [order_by_원료명 fold_right In]. rewrite In_insert_by_원료명.
  fold (order_by_원료명 l). rewrite IH. intuition congruence.
Qed.

(** X13.  Saving the editor never inserts or deletes an inventory row and
    never writes another table, whether the save goes through or is thrown
    out by the NOT NULL constraint: the ids of the inventory rows are the
    same list as before, so a row added in the editor is not stored (leaving
    it out of the frame makes no difference) and a row removed in the editor
    stays in the table; the transaction table is untouched, so a stock
    typed into the editor leaves no transaction behind. *)
Theorem X13_editor_save_keeps_rows_and_other_tables :
  forall (df : list edited.row) (d : database),
    map inventory.id (tbl_inventory (fst (update_inventory_from_df df d)))
    = map inventory.id (tbl_inventory d)
    /\ tbl_transactions (fst (update_inventory_from_df df d))
       = tbl_transactions d
    /\ tbl_formula (fst (update_inventory_from_df df d)) = tbl_formula d
    /\ tbl_production_history (fst (update_inventory_from_df df d))
       = tbl_production_history d
    /\ (forall df1 e df2,
           df = df1 ++ e :: df2 -> edited.id e = None ->
           update_inventory_from_df df d
           = update_inventory_from_df (df1 ++ df2) d).
Proof.
  intros df d. unfold update_inventory_from_df.
  split; [| split; [| split; [| split]]].
  - destruct (update_loop_cases df (tbl_inventory d)) as [OK | KO].
    + rewrite (update_loop_rows _ _ OK). cbn [fst tbl_inventory].
      rewrite map_map. apply map_ext. intro r. apply apply_edits_id.
    + now rewrite (update_loop_fails _ _ KO).
  - destruct (fold_left _ df _); reflexivity.
  - destruct (fold_left _ df _); reflexivity.
  - destruct (fold_left _ df _); reflexivity.
  - intros df1 e df2 -> Hid. rewrite !fold_left_app. cbn [fold_left].
    destruct (fold_left _ df1 _) as [inv1 |]; [| reflexivity].
    unfold update_inventory_where_id at 2. now rewrite Hid.
Qed.

Lemma X13_witness :
  update_inventory_from_df edited_frame twin_db
  = update_inventory_from_df
      ([edited.mk (Some 1%Z) (Some "Oil-A") (Z2Qc 42) None None None None
                  None] ++ [])
      twin_db.
Proof.
  apply (proj2 (proj2 (proj2 (proj2
           (X13_editor_save_keeps_rows_and_other_tables edited_frame twin_db))))
           [edited.mk (Some 1%Z) (Some "Oil-A") (Z2Qc 42) None None None None
                      None]
           (edited.mk None (Some "Rose") (Z2Qc 9) None None None None None) []);
    reflexivity.
Defined.

(** X14.  With unique inventory ids, saving a frame every row of which is an
    inventory row as it stands (in any order, with or without repeats or
    omissions) goes through and leaves the database as it is; in particular
    saving what [get_inventory] has just read, unedited, changes nothing. *)
Theorem X14_saving_unedited_rows_changes_nothing :
  forall (df : list edited.row) (d : database),
    NoDup (map inventory.id (tbl_inventory d)) ->
    ((forall e, In e df ->
                exists r, In r (tbl_inventory d) /\ e = as_edited r) ->
     update_inventory_from_df df d = (d, saved))
    /\ update_inventory_from_df (map as_edited (get_inventory d)) d
       = (d, saved).
Proof.
  intros df d ND.
  assert (G : forall df',
             (forall e, In e df' ->
                        exists r, In r (tbl_inventory d) /\ e = as_edited r) ->
             update_inventory_from_df df' d = (d, saved)).
  { intros df' H. unfold update_inventory_from_df.
    rewrite update_loop_rows.
    - replace (map (fun r => fold_left apply_edit df' r) (tbl_inventory d))
        with (tbl_inventory d); [destruct d; reflexivity |].
      rewrite <- (map_id (tbl_inventory d)) at 1. apply map_ext_in.
      intros r Hr. symmetry.
      now apply (apply_edits_same df' (tbl_inventory d)).
    - intros e He. destruct (H e He) as [r [_ ->]]. reflexivity. }
  split; [apply G |]. apply G. intros e He. apply in_map_iff in He.
  destruct He as [r [<- Hr]]. exists r. split; [| reflexivity].
  now apply In_order_by_원료명.
Qed.

Lemma X14_witness :
  update_inventory_from_df (map as_edited (get_inventory twin_db)) twin_db
  = (twin_db, saved).
Proof.
  apply (X14_saving_unedited_rows_changes_nothing [] twin_db).
  repeat constructor; cbn; intuition discriminate.
Defined.

Lemma apply_edits_last (df2 : list edited.row) (e : edited.row)
    (name : string) (r : inventory.row) :
  edited.id e = Some (inventory.id r) ->
  edited.원료명 e = Some name ->
  (forall e', In e' df2 -> edited.id e' <> Some (inventory.id r)) ->
  forall df1,
    fold_left apply_edit (df1 ++ e :: df2) r
    = inventory.mk (inventory.id r) name (edited.재고량_g e)
                   (edited.유통기한 e) (edited.거래처 e) (edited.단가 e)
                   (edited.MOQ e) (edited.리드타임 e).
Proof.
  intros He Hn H2 df1. rewrite fold_left_app. cbn [fold_left].
  set (r1 := fold_left apply_edit df1 r).
  assert (I1 : inventory.id r1 = inventory.id r) by apply apply_edits_id.
  assert (E : apply_edit r1 e
              = inventory.mk (inventory.id r) name
                  (edited.재고량_g e) (edited.유통기한 e) (edited.거래처 e)
                  (edited.단가 e) (edited.MOQ e) (edited.리드타임 e)).
  { unfold apply_edit. rewrite He, Hn, I1, Z.eqb_refl. reflexivity. }
  rewrite E. apply apply_edits_untouched. exact H2.
Qed.

(** X15.  A frame row whose name cell is empty and whose id is the id of an
    inventory row makes the save fail on the NOT NULL constraint: nothing is
    committed and the database is as before, also for the rows the loop had
    already updated.  When the frame has no such row, the save goes through
    and gives every inventory row the cells of the last frame row that
    carries its id: name, stock, expiry, vendor, price, MOQ and lead time are
    all overwritten, the id is kept; an inventory row whose id is in no frame
    row is left as it is. *)
Theorem X15_editor_save_writes_last_frame_row_or_nothing :
  forall (df1 df2 : list edited.row) (e : edited.row) (d : database),
    let df := df1 ++ e :: df2 in
    ((exists x, In x df /\ violates_not_null (tbl_inventory d) x = true) ->
     update_inventory_from_df df d = (d, integrity_error))
    /\ ((forall x, In x df -> violates_not_null (tbl_inventory d) x = false) ->
        snd (update_inventory_from_df df d) = saved
        /\ forall (k : nat) (r : inventory.row),
             nth_error (tbl_inventory d) k = Some r ->
             (forall name,
                 edited.id e = Some (inventory.id r) ->
                 edited.원료명 e = Some name ->
                 (forall e', In e' df2 ->
                             edited.id e' <> Some (inventory.id r)) ->
                 nth_error (tbl_inventory (fst (update_inventory_from_df df d)))
                           k
                 = Some (inventory.mk (inventory.id r) name
                                      (edited.재고량_g e) (edited.유통기한 e)
                                      (edited.거래처 e) (edited.단가 e)
                                      (edited.MOQ e) (edited.리드타임 e)))
             /\ ((forall e', In e' df ->
                             edited.id e' <> Some (inventory.id r)) ->
                 nth_error (tbl_inventory (fst (update_inventory_from_df df d)))
                           k
                 = Some r)).
Proof.
  intros df1 df2 e d. cbv zeta. unfold update_inventory_from_df. split.
  - intro KO. now rewrite (update_loop_fails _ _ KO).
  - intro OK. rewrite (update_loop_rows _ _ OK). cbn [fst snd tbl_inventory].
    split; [reflexivity |]. intros k r Hr. rewrite nth_error_map, Hr.
    cbn [option_map]. split.
    + intros name He Hn H2. f_equal. now apply apply_edits_last.
    + intro H. f_equal. now apply apply_edits_untouched.
Qed.

Lemma X15_witness :
  update_inventory_from_df cleared_frame twin_db = (twin_db, integrity_error)
  /\ nth_error
       (tbl_inventory (fst (update_inventory_from_df edited_frame twin_db))) 0
     = Some (inventory.mk 1 "Oil-A" (Z2Qc 42) None None None None None)
  /\ nth_error
       (tbl_inventory (fst (update_inventory_from_df edited_frame twin_db))) 1
     = Some (inventory.mk 2 "Wax" (Z2Qc 7) None None None None None).
Proof.
  assert (OK : forall x, In x edited_frame ->
                         violates_not_null (tbl_inventory twin_db) x = false)
    by (intros x [<- | [<- | []]]; reflexivity).
  split; [| split].
  - apply (proj1 (X15_editor_save_writes_last_frame_row_or_nothing
                    [edited.mk (Some 1%Z) (Some "Oil-A") (Z2Qc 42) None None
                               None None None] []
                    (edited.mk (Some 2%Z) None (Z2Qc 7) None None None None
                               None)
                    twin_db)).
    exists (edited.mk (Some 2%Z) None (Z2Qc 7) None None None None None).
    split; [right; left; reflexivity | reflexivity].
  - apply (proj1 (proj2 (proj2
                    (X15_editor_save_writes_last_frame_row_or_nothing
                       []
                       [edited.mk None (Some "Rose") (Z2Qc 9) None None None
                                  None None]
                       (edited.mk (Some 1%Z) (Some "Oil-A") (Z2Qc 42) None
                                  None None None None)
                       twin_db) OK) 0%nat
                    (inventory.mk 1 "Oil-A" (Z2Qc 100) None None None None
                                  None)
                    eq_refl)).
    + reflexivity.
    + reflexivity.
    + intros e' [<- | []]. discriminate.
  - apply (proj2 (proj2 (proj2
                    (X15_editor_save_writes_last_frame_row_or_nothing
                       []
                       [edited.mk None (Some "Rose") (Z2Qc 9) None None None
                                  None None]
                       (edited.mk (Some 1%Z) (Some "Oil-A") (Z2Qc 42) None
                                  None None None None)
                       twin_db) OK) 1%nat
                    (inventory.mk 2 "Wax" (Z2Qc 7) None None None None None)
                    eq_refl)).
    intros e' [<- | [<- | []]]; discriminate.
Defined.

(** ** The expiry date and the new-material flow *)

Lemma database_eta (d : database) :
  mkdb (tbl_inventory d) (tbl_formula d) (tbl_production_history d)
       (tbl_transactions d) (seq_production_history d) (seq_transactions d)
  = d.
Proof. destruct d; reflexivity. Qed.

(** X16.  The expiry button writes nothing but expiry dates: for every
    input, all other columns of all inventory rows (stock included) and all
    other tables are as before.  With a selected id other than 0, the rows of
    that id get the text of the chosen date, and the text "None" when no date
    was chosen; rows of another id keep their date.  With nothing selected,
    with id 0, or with an id no row has, the database is unchanged. *)
Theorem X16_expiry_button_writes_only_expiry :
  forall (selected_id : option Z) (new_date : option string) (d : database),
    let res := expiration_button selected_id new_date d in
    map without_유통기한 (tbl_inventory (fst res))
    = map without_유통기한 (tbl_inventory d)
    /\ tbl_transactions (fst res) = tbl_transactions d
    /\ tbl_formula (fst res) = tbl_formula d
    /\ tbl_production_history (fst res) = tbl_production_history d
    /\ (forall i k r,
           selected_id = Some i -> i <> 0%Z ->
           nth_error (tbl_inventory d) k = Some r ->
           snd res = expiration_updated
           /\ exists r',
                nth_error (tbl_inventory (fst res)) k = Some r'
                /\ inventory.유통기한 r'
                   = (if Z.eqb (inventory.id r) i
                      then Some (match new_date with
                                 | Some iso => iso
                                 | None => "None"
                                 end)
                      else inventory.유통기한 r))
    /\ ((selected_id = None \/ selected_id = Some 0%Z
         \/ exists i, selected_id = Some i
                      /\ forall r, In r (tbl_inventory d) ->
                                   inventory.id r <> i) ->
        fst res = d).
Proof.
  intros selected_id new_date d. cbv zeta.
  assert (W : forall i s,
             map without_유통기한
                 (tbl_inventory (update_expiration_date i s d))
             = map without_유통기한 (tbl_inventory d)).
  { intros i s. unfold update_expiration_date. cbn [tbl_inventory].
    rewrite map_map. apply map_ext. intro r.
    destruct (Z.eqb (inventory.id r) i); reflexivity. }
  unfold expiration_button.
  split; [| split; [| split; [| split; [| split]]]].
  - destruct selected_id as [i |]; [| reflexivity].
    destruct (Z.eqb i 0); [reflexivity | apply W].
  - destruct selected_id as [i |]; [| reflexivity].
    destruct (Z.eqb i 0); reflexivity.
  - destruct selected_id as [i |]; [| reflexivity].
    destruct (Z.eqb i 0); reflexivity.
  - destruct selected_id as [i |]; [| reflexivity].
    destruct (Z.eqb i 0); reflexivity.
  - intros i k r -> NZ Hr. apply Z.eqb_neq in NZ. rewrite NZ.
    cbn [fst snd]. split; [reflexivity |].
    unfold update_expiration_date. cbn [tbl_inventory].
    rewrite nth_error_map, Hr. cbn [option_map]. eexists.
    split; [reflexivity |].
    destruct (Z.eqb (inventory.id r) i); reflexivity.
  - intros [-> | [-> | [i [-> Habs]]]]; [reflexivity | reflexivity |].
    destruct (Z.eqb i 0); [reflexivity |]. cbn [fst].
    unfold update_expiration_date.
    replace (map _ (tbl_inventory d)) with (tbl_inventory d);
      [apply database_eta |].
    rewrite <- (map_id (tbl_inventory d)) at 1. apply map_ext_in.
    intros r Hr.
    destruct (Z.eqb_spec (inventory.id r) i) as [E | _];
      [exfalso; exact (Habs r Hr E) | reflexivity].
Qed.

Lemma X16_witness :
  exists r',
    nth_error (tbl_inventory (fst (expiration_button (Some 2%Z) None twin_db))) 1
    = Some r'
    /\ inventory.유통기한 r' = Some "None".
Proof.
  destruct (proj1 (proj2 (proj2 (proj2 (proj2
              (X16_expiry_button_writes_only_expiry (Some 2%Z) None twin_db)))))
              2%Z 1%nat
              (inventory.mk 2 "Wax" (Z2Qc 7) None None None None None)
              eq_refl) as [_ [r' [H1 H2]]].
  - discriminate.
  - reflexivity.
  - exists r'. split; [exact H1 | exact H2].
Defined.




(** ** The material list of the transaction page *)

Lemma ascii_compare_refl (a : Ascii.ascii) : Ascii.compare a a = Eq.
Proof. unfold Ascii.compare. apply N.compare_refl. Qed.

Lemma ascii_compare_lt_trans (a b c : Ascii.ascii) :
  Ascii.compare a b = Lt -> Ascii.compare b c = Lt -> Ascii.compare a c = Lt.
Proof.
  unfold Ascii.compare. rewrite !N.compare_lt_iff. lia.
Qed.

Lemma string_leb_trans (s t u : string) :
  String.leb s t = true -> String.leb t u = true -> String.leb s u = true.
Proof.
  unfold String.leb. revert t u.
  induction s as [| a s IH]; intros [| b t] [| c u]; cbn [String.compare];
    try reflexivity; try discriminate.
  destruct (Ascii.compare a b) eqn:Eab; try discriminate.
  - apply Ascii.compare_eq_iff in Eab. subst b.
    destruct (Ascii.compare a c) eqn:Eac; try discriminate; try reflexivity.
    apply IH.
  - intros _. destruct (Ascii.compare b c) eqn:Ebc; try discriminate.
    + apply Ascii.compare_eq_iff in Ebc. subst c. now rewrite Eab.
    + now rewrite (ascii_compare_lt_trans a b c Eab Ebc).
Qed.

Lemma insert_by_원료명_sorted (r : inventory.row) (l : list inventory.row) :
  Sorted (fun x y => String.leb (inventory.원료명 x) (inventory.원료명 y) = true)
         l ->
  Sorted (fun x y => String.leb (inventory.원료명 x) (inventory.원료명 y) = true)
         (insert_by_원료명 r l).
Proof.
  induction l as [| x l IH]; intro S; cbn [insert_by_원료명].
  - repeat constructor.
  - destruct (String.leb (inventory.원료명 r) (inventory.원료명 x)) eqn:E.
    + constructor; [exact S | constructor; exact E].
    + inversion S as [| ? ? S' Hd]; subst.
      constructor; [now apply IH |].
      assert (X : String.leb (inventory.원료명 x) (inventory.원료명 r) = true).
      { destruct (String.leb_total (inventory.원료명 x) (inventory.원료명 r));
          [assumption | congruence]. }
      destruct l as [| y l]; cbn [insert_by_원료명].
      * constructor. exact X.
      * destruct (String.leb (inventory.원료명 r) (inventory.원료명 y));
          constructor; [exact X | now inversion Hd].
Qed.

Lemma order_by_원료명_sorted (l : list inventory.row) :
  StronglySorted
    (fun x y => String.leb (inventory.원료명 x) (inventory.원료명 y) = true)
    (order_by_원료명 l).
Proof.
  apply Sorted_StronglySorted.
  - intros x y z. apply string_leb_trans.
  - induction l as [| r l IH]; [constructor |].
    cbn [order_by_원료명 fold_right]. now apply insert_by_원료명_sorted.
Qed.

Lemma names_sorted (l : list inventory.row) :
  StronglySorted
    (fun x y => String.leb (inventory.원료명 x) (inventory.원료명 y) = true) l ->
  StronglySorted (fun x y => String.leb x y = true) (map inventory.원료명 l).
Proof.
  induction 1 as [| x l S IH F]; cbn [map]; constructor; [exact IH |].
  rewrite Forall_forall in *. intros n Hn. apply in_map_iff in Hn.
  destruct Hn as [y [<- Hy]]. now apply F.
Qed.

Lemma unique_strictly_sorted (l : list string) :
  StronglySorted (fun x y => String.leb x y = true) l ->
  StronglySorted (fun x y => String.ltb x y = true) (unique l).
Proof.
  induction l as [| x l IH]; intro S; cbn [unique]; [constructor |].
  inversion S as [| ? ? S' F]; subst. specialize (IH S').
  assert (K : forall (p : string -> bool) m,
             StronglySorted (fun x y => String.ltb x y = true) m ->
             StronglySorted (fun x y => String.ltb x y = true) (filter p m)).
  { intros p m. induction m as [| y m IHm]; intro Sm; [constructor |].
    inversion Sm as [| ? ? Sm' Fm]; subst. cbn [filter].
    destruct (p y); [| now apply IHm].
    constructor; [now apply IHm |].
    rewrite Forall_forall in *. intros z Hz. apply Fm.
    apply filter_In in Hz. tauto. }
  constructor; [now apply K |].
  rewrite Forall_forall in *. intros y Hy. apply filter_In in Hy.
  destruct Hy as [Hy Hne]. rewrite In_unique in Hy.
  apply negb_true_iff, String.eqb_neq in Hne. specialize (F y Hy).
  unfold String.leb in F. unfold String.ltb.
  destruct (String.compare x y) eqn:C; try reflexivity; try discriminate.
  apply String.compare_eq_iff in C. congruence.
Qed.

(** X18.  The material list offered for an existing material names exactly
    the names found in the inventory table, each once, in strictly ascending
    byte order.  So a transaction recorded for a listed name always reaches
    at least one inventory row. *)
Theorem X18_material_list_is_sorted_distinct_names :
  forall d : database,
    (forall name,
        In name (get_inventory_list d)
        <-> exists r, In r (tbl_inventory d) /\ inventory.원료명 r = name)
    /\ NoDup (get_inventory_list d)
    /\ StronglySorted (fun x y => String.ltb x y = true)
                      (get_inventory_list d)
    /\ (forall name,
           In name (get_inventory_list d) ->
           (0 < rows_named name (tbl_inventory d))%nat).
Proof.
  intro d. unfold get_inventory_list.
  assert (M : forall name,
             In name (unique (map inventory.원료명
                                  (order_by_원료명 (tbl_inventory d))))
             <-> exists r, In r (tbl_inventory d)
                           /\ inventory.원료명 r = name).
  { intro name. rewrite In_unique, in_map_iff. split.
    - intros [r [E Hr]]. exists r. split; [| exact E].
      now apply In_order_by_원료명.
    - intros [r [Hr E]]. exists r. split; [exact E |].
      now apply In_order_by_원료명. }
  split; [exact M |]. split; [apply NoDup_unique |]. split.
  - apply unique_strictly_sorted, names_sorted, order_by_원료명_sorted.
  - intros name Hin. apply M in Hin. destruct Hin as [r [Hr E]].
    unfold rows_named.
    assert (Hf : In r (filter (fun x => String.eqb (inventory.원료명 x) name)
                              (tbl_inventory d))).
    { apply filter_In. split; [exact Hr | now apply String.eqb_eq]. }
    destruct (filter _ (tbl_inventory d)); [contradiction | cbn; lia].
Qed.

Lemma X18_witness :
  (0 < rows_named "Wax" (tbl_inventory twin_db))%nat.
Proof.
  apply (proj2 (proj2 (proj2
           (X18_material_list_is_sorted_distinct_names twin_db)))).
  apply In_unique. right. right. left. reflexivity.
Defined.

Lemma insert_by_원료명_perm (r : inventory.row) (l : list inventory.row) :
  Permutation (insert_by_원료명 r l) (r :: l).
Proof.
  induction l as [| x l IH]; cbn [insert_by_원료명]; [reflexivity |].
  destruct (String.leb (inventory.원료명 r) (inventory.원료명 x));
    [reflexivity |].
  rewrite IH. apply perm_swap.
Qed.

(** X19.  [get_inventory], which fills the editor, returns every inventory
    row exactly as often as the table holds it, in ascending byte order of
    the names: the editor shows the whole table and nothing else. *)
Theorem X19_get_inventory_is_the_table_sorted_by_name :
  forall d : database,
    Permutation (get_inventory d) (tbl_inventory d)
    /\ StronglySorted
         (fun x y => String.leb (inventory.원료명 x) (inventory.원료명 y) = true)
         (get_inventory d).
Proof.
  intro d. unfold get_inventory. split; [| apply order_by_원료명_sorted].
  induction (tbl_inventory d) as [| r l IH]; [reflexivity |].
  cbn [order_by_원료명 fold_right]. rewrite insert_by_원료명_perm.
  now constructor.
Qed.

(** ** The detail view of a production run *)




(** ** A plan kept across widget changes *)


